(** * Health and readiness reporting of the stock-analysis services

    A shallow embedding of

    - [shared/health_check.py]: the generic [HealthChecker] class and the
      FastAPI application built by [create_health_app]
      (module [HealthCheck] below);
    - [services/intelligent-core-service/health.py]: the health endpoints of
      the intelligent core service, kept in module-level globals
      (module [IntelligentCore] below).

    Python's effects are written out: exceptions are a [result], everything
    the process observes outside itself (the wall clock, the environment,
    network peers, psutil) is an oracle of the [World], and the handlers run
    in a state monad over the process, whose [self] field is the Python
    object the handlers close over. *)

From Stdlib Require Import ZArith QArith List String Ascii Bool Lia Sorted.
From Stdlib Require Import DecimalString.
Import ListNotations.

Local Open Scope string_scope.
Local Open Scope Z_scope.

(** ** Exceptions

    The two files catch with [except Exception], so the one distinction of
    the exception hierarchy that matters is the one between the classes
    below [Exception] and those that derive from [BaseException] only. *)

Inductive base_only : Type :=
| SystemExit
| KeyboardInterrupt
| GeneratorExit
| CancelledError.
(* asyncio.CancelledError derives from BaseException since Python 3.8 *)

Inductive exn : Type :=
| BaseExc (cls : base_only) (msg : string)
| Exc (cls : string) (msg : string).
(* [Exc cls msg]: an instance of [Exception] or of one of its subclasses *)

Definition isinstance_Exception (e : exn) : bool :=
  match e with
  | BaseExc _ _ => false
  | Exc _ _ => true
  end.

(** [str(e)], as the f-strings of the probes print it. *)
Definition str_exn (e : exn) : string :=
  match e with
  | BaseExc _ msg => msg
  | Exc _ msg => msg
  end.

Inductive result (A : Type) : Type :=
| Ret (a : A)
| Raise (e : exn).

Arguments Ret {A} a.
Arguments Raise {A} e.

(** ** JSON values

    Response bodies are Python dicts; a dict keeps insertion order, so an
    object is an association list. Floats are carried as exact rationals. *)

#[warnings="-register-all"]
Inductive json : Type :=
| JBool (b : bool)
| JInt (z : Z)
| JFloat (q : Q)
| JStr (s : string)
| JObj (fields : list (string * json)).

Fixpoint assoc {A : Type} (k : string) (d : list (string * A)) : option A :=
  match d with
  | [] => None
  | (k', v) :: d' => if String.eqb k k' then Some v else assoc k d'
  end.

Definition keys {A : Type} (d : list (string * A)) : list string :=
  map fst d.

Definition values {A : Type} (d : list (string * A)) : list A :=
  map snd d.

(** [body[k]] of a JSON object. *)
Definition field (k : string) (body : json) : option json :=
  match body with
  | JObj d => assoc k d
  | _ => None
  end.

(** Python's [all] on booleans. *)
Definition all (bs : list bool) : bool := forallb (fun b => b) bs.

(** Equality of two dicts with boolean values, as Python's [==] has it:
    same keys, same value under each key, whatever the order. *)
Definition dict_le (d1 d2 : list (string * bool)) : bool :=
  forallb (fun kv => match assoc (fst kv) d2 with
                     | Some v => Bool.eqb v (snd kv)
                     | None => false
                     end) d1.

Definition dict_eqb (d1 d2 : list (string * bool)) : bool :=
  dict_le d1 d2 && dict_le d2 d1.

(** ** Naive UTC datetimes

    A [datetime] is a count of microseconds since 1970-01-01T00:00:00, the
    resolution Python's datetime has; the difference of two is a
    [timedelta], again in microseconds. *)

Definition datetime := Z.
Definition timedelta := Z.

Definition sub_datetime (a b : datetime) : timedelta := a - b.

(** [timedelta.total_seconds()]: the microseconds divided by 10^6. The
    float Python returns is this quotient rounded to the nearest double;
    rounding is monotone and keeps the sign. *)
Definition total_seconds (d : timedelta) : Q := Qmake d 1000000.

Fixpoint digits (width : nat) (n : Z) : string :=
  match width with
  | O => ""
  | S w => digits w (n / 10) ++
           String (ascii_of_nat (48 + Z.to_nat (n mod 10))) ""
  end.

(** Days since the epoch to (year, month, day) in the proleptic Gregorian
    calendar. *)
Definition civil_from_days (days : Z) : Z * Z * Z :=
  let z := days + 719468 in
  let era := z / 146097 in
  let doe := z - era * 146097 in
  let yoe := (doe - doe / 1460 + doe / 36524 - doe / 146096) / 365 in
  let doy := doe - (365 * yoe + yoe / 4 - yoe / 100) in
  let mp := (5 * doy + 2) / 153 in
  let d := doy - (153 * mp + 2) / 5 + 1 in
  let m := if mp <? 10 then mp + 3 else mp - 9 in
  let y := yoe + era * 400 + (if m <=? 2 then 1 else 0) in
  (y, m, d).

(** [datetime.isoformat()]: YYYY-MM-DDTHH:MM:SS, followed by .ffffff when
    the microsecond field is not zero. *)
Definition isoformat (t : datetime) : string :=
  let us := t mod 1000000 in
  let secs := t / 1000000 in
  let sod := secs mod 86400 in
  let '(y, m, d) := civil_from_days (secs / 86400) in
  digits 4 y ++ "-" ++ digits 2 m ++ "-" ++ digits 2 d ++ "T" ++
  digits 2 (sod / 3600) ++ ":" ++ digits 2 (sod mod 3600 / 60) ++ ":" ++
  digits 2 (sod mod 60) ++
  (if us =? 0 then "" else "." ++ digits 6 us).

(** ** What the process sees of the outside

    Every observation of the outside is indexed by the number of
    observations the process has made before it, so that successive readings
    of the clock and successive connection attempts are free to differ. *)

Inductive dependency : Type := Postgres | Redis | RabbitMQ.

Record PostgresConfig : Type := {
  pg_host : string;
  pg_port : Z;
  pg_database : string;
  pg_user : string;
  pg_password : string
}.

Record RedisConfig : Type := {
  redis_host : string;
  redis_port : Z;
  decode_responses : bool
}.

Record RabbitmqConfig : Type := {
  rabbitmq_host : string;
  rabbitmq_port : Z;
  virtual_host : string;
  username : string;
  password : string
}.

(** What each call of a probe's [try] block does: [None] when it returns,
    [Some e] when it raises [e]. A call is only reached when the calls
    before it returned. *)

Record psycopg2_session : Type := {
  pg_connect : option exn;        (* psycopg2.connect *)
  pg_cursor : option exn;         (* conn.cursor *)
  pg_execute : option exn;        (* cursor.execute *)
  pg_cursor_close : option exn;   (* cursor.close *)
  pg_conn_close : option exn      (* conn.close *)
}.

Record redis_session : Type := {
  redis_init : option exn;        (* redis.Redis *)
  redis_ping : option exn         (* r.ping *)
}.

Record pika_session : Type := {
  pika_credentials : option exn;  (* pika.PlainCredentials *)
  pika_parameters : option exn;   (* pika.ConnectionParameters *)
  pika_connect : option exn;      (* pika.BlockingConnection *)
  pika_close : option exn         (* connection.close *)
}.

Record virtual_memory : Type := {
  vm_percent : Q;
  vm_used : Z
}.

Record World : Type := {
  environ : string -> option string;                    (* os.environ *)
  utcnow : nat -> datetime;                             (* datetime.utcnow *)
  psycopg2 : nat -> PostgresConfig -> psycopg2_session;
  redis_py : nat -> RedisConfig -> redis_session;
  pika : nat -> RabbitmqConfig -> pika_session;
  cpu_percent : nat -> Q;                               (* psutil.cpu_percent *)
  psutil_virtual_memory : nat -> virtual_memory;
  disk_percent : nat -> Q;                              (* psutil.disk_usage *)
  num_threads : nat -> Z;                               (* psutil.Process *)
  getpid : Z                                            (* os.getpid *)
}.

(** What a handler does that is visible outside the process, apart from its
    answer. *)
Inductive io_event : Type :=
| Connect (d : dependency)
| Print (line : string).

(** The running process: the Python state the handlers share ([self] of the
    class, the globals of the module), the number of observations made so
    far and the visible effects so far, oldest first. *)
Record Proc (St : Type) : Type := {
  self : St;
  steps : nat;
  io : list io_event
}.

Arguments self {St} p.
Arguments steps {St} p.
Arguments io {St} p.

(** ** The monad of the handlers: state and exceptions *)

Definition M (St A : Type) : Type := World -> Proc St -> result A * Proc St.

Definition ret {St A : Type} (a : A) : M St A := fun _ p => (Ret a, p).

Definition raise {St A : Type} (e : exn) : M St A := fun _ p => (Raise e, p).

Definition bind {St A B : Type} (m : M St A) (k : A -> M St B) : M St B :=
  fun w p =>
    match m w p with
    | (Ret a, p') => k a w p'
    | (Raise e, p') => (Raise e, p')
    end.

Declare Scope py_scope.
Delimit Scope py_scope with py.
Notation "x <- m ;; k" := (bind m (fun x => k))
  (at level 61, m at next level, right associativity) : py_scope.
Notation "m ;; k" := (bind m (fun _ => k))
  (at level 61, right associativity) : py_scope.
Local Open Scope py_scope.

(** Reading an attribute of the shared state. *)
Definition attr {St A : Type} (f : St -> A) : M St A :=
  fun _ p => (Ret (f (self p)), p).

(** Assigning to the shared state. *)
Definition assign {St : Type} (f : St -> St) : M St unit :=
  fun _ p => (Ret tt, {| self := f (self p); steps := steps p; io := io p |}).

(** One observation of the outside. *)
Definition observe {St A : Type} (f : World -> nat -> A) : M St A :=
  fun w p =>
    (Ret (f w (steps p)),
     {| self := self p; steps := S (steps p); io := io p |}).

(** Reading what does not change while the process runs. *)
Definition ask {St A : Type} (f : World -> A) : M St A :=
  fun w p => (Ret (f w), p).

Definition emit {St : Type} (ev : io_event) : M St unit :=
  fun _ p =>
    (Ret tt, {| self := self p; steps := steps p; io := (io p ++ [ev])%list |}).

(** A library call that returns nothing of interest or raises. *)
Definition call {St : Type} (o : option exn) : M St unit :=
  match o with
  | None => ret tt
  | Some e => raise e
  end.

(** [try: body  except Exception as e: handler e]. An exception that is not
    an instance of [Exception] passes through. *)
Definition try_except_Exception {St A : Type}
    (body : M St A) (handler : exn -> M St A) : M St A :=
  fun w p =>
    match body w p with
    | (Ret a, p') => (Ret a, p')
    | (Raise e, p') =>
        if isinstance_Exception e then handler e w p' else (Raise e, p')
    end.

(** [await asyncio.sleep(_)]: nothing but time passes. *)
Definition asyncio_sleep {St : Type} (seconds : Z) : M St unit := ret tt.

(** ** HTTP responses, as FastAPI builds them *)

Record Response : Type := JSONResponse {
  content : json;
  status_code : Z
}.

Definition HTTP_200_OK : Z := 200.
Definition HTTP_503_SERVICE_UNAVAILABLE : Z := 503.

(** A path operation that returns a dict is answered with status 200. *)
Definition respond_dict {St : Type} (handler : M St json) : M St Response :=
  body <- handler ;; ret (JSONResponse body HTTP_200_OK).

(** [os.getenv(key, default)] with a string default. *)
Definition getenv (w : World) (key default : string) : string :=
  match environ w key with
  | Some v => v
  | None => default
  end.

Definition json_of_checks (checks : list (string * bool)) : json :=
  JObj (map (fun kv => (fst kv, JBool (snd kv))) checks).

(** [d[k]] on a JSON object. *)
Definition getitem {St : Type} (d : json) (k : string) : M St json :=
  match field k d with
  | Some v => ret v
  | None => raise (Exc "KeyError" k)
  end.

(** Truth value of a JSON value in a condition. *)
Definition truth (v : json) : bool :=
  match v with
  | JBool b => b
  | JInt z => negb (z =? 0)
  | JFloat q => negb (Qeq_bool q 0)
  | JStr s => negb (String.eqb s "")
  | JObj d => match d with [] => false | _ => true end
  end.

(** ** The builtin [int]

    [int] on a string is the interpreter's: the embedding takes it as a
    parameter, [None] standing for [ValueError]. [int_ascii] is what it does
    on ASCII text: optional surrounding whitespace, an optional sign, then
    decimal digits, single underscores allowed between digits. *)

Definition is_space (c : ascii) : bool :=
  let n := nat_of_ascii c in
  ((9 <=? n) && (n <=? 13) || (28 <=? n) && (n <=? 32))%nat.

Definition is_digit (c : ascii) : bool :=
  let n := nat_of_ascii c in ((48 <=? n) && (n <=? 57))%nat.

Fixpoint lstrip (l : list ascii) : list ascii :=
  match l with
  | c :: l' => if is_space c then lstrip l' else l
  | [] => []
  end.

Fixpoint int_digits (acc : Z) (after_digit : bool) (l : list ascii)
    : option Z :=
  match l with
  | [] => if after_digit then Some acc else None
  | c :: l' =>
      if is_digit c
      then int_digits (10 * acc + Z.of_nat (nat_of_ascii c - 48)) true l'
      else if Ascii.eqb c "_"
           then if after_digit then int_digits acc false l' else None
           else None
  end.

Definition int_ascii (s : string) : option Z :=
  let body := rev (lstrip (rev (lstrip (list_ascii_of_string s)))) in
  match body with
  | c :: l =>
      if Ascii.eqb c "-" then option_map Z.opp (int_digits 0 false l)
      else if Ascii.eqb c "+" then int_digits 0 false l
      else int_digits 0 false body
  | [] => None
  end.

Section Builtins.

Variable int_of_str : string -> option Z.

(** [int(os.getenv(key, default))] with an integer default: the default
    is an [int] already, a value found in the environment is parsed. *)
Definition int_getenv {St : Type} (key : string) (default : Z) : M St Z :=
  fun w p =>
    match environ w key with
    | None => (Ret default, p)
    | Some v =>
        match int_of_str v with
        | Some n => (Ret n, p)
        | None =>
            (Raise (Exc "ValueError"
                      ("invalid literal for int() with base 10: '"
                         ++ v ++ "'")), p)
        end
    end.

End Builtins.

(** ** Runs of an application

    The framework calls the startup handler and the path operations one
    after the other on the same process; a handler that raises leaves the
    process as it was when it raised. *)

Fixpoint run {St E A : Type} (step : E -> M St A) (w : World)
    (events : list E) (p : Proc St) : list (result A) * Proc St :=
  match events with
  | [] => ([], p)
  | ev :: events' =>
      let '(r, p') := step ev w p in
      let '(rs, p'') := run step w events' p' in
      (r :: rs, p'')
  end.

Inductive route : Type :=
| Health        (* GET /health *)
| HealthLive    (* GET /health/live *)
| HealthReady   (* GET /health/ready *)
| Root.         (* GET / *)

Inductive app_event : Type :=
| Startup
| GET (r : route).

(** * shared/health_check.py *)

Module HealthCheck.

(** The attributes [__init__] sets on [self]. *)
Record HealthChecker : Type := {
  service_name : string;
  service_version : string;
  service_port : Z;
  startup_time : datetime;
  is_ready : bool;
  postgres_config : PostgresConfig;
  redis_config : RedisConfig;
  rabbitmq_config : RabbitmqConfig
}.

(** [self.is_ready = b] *)
Definition set_is_ready (b : bool) (h : HealthChecker) : HealthChecker :=
  {| service_name := service_name h;
     service_version := service_version h;
     service_port := service_port h;
     startup_time := startup_time h;
     is_ready := b;
     postgres_config := postgres_config h;
     redis_config := redis_config h;
     rabbitmq_config := rabbitmq_config h |}.

Section Construction.

Variable int_of_str : string -> option Z.

(** [HealthChecker.__init__]: the object does not exist before, so the
    constructor runs over the empty state and returns the object. *)
Definition __init__ (name version : string) : M unit HealthChecker :=
  port <- int_getenv int_of_str "SERVICE_PORT" 8000 ;;
  now <- observe utcnow ;;
  pg_host <- ask (fun w => getenv w "POSTGRES_HOST" "localhost") ;;
  pg_port <- int_getenv int_of_str "POSTGRES_PORT" 5432 ;;
  pg_db <- ask (fun w => getenv w "POSTGRES_DB" "aktienanalyse_event_store") ;;
  pg_user <- ask (fun w => getenv w "POSTGRES_USER" "stock_analysis") ;;
  pg_pw <- ask (fun w => getenv w "POSTGRES_PASSWORD" "secure_password") ;;
  rd_host <- ask (fun w => getenv w "REDIS_HOST" "localhost") ;;
  rd_port <- int_getenv int_of_str "REDIS_PORT" 6379 ;;
  mq_host <- ask (fun w => getenv w "RABBITMQ_HOST" "localhost") ;;
  mq_port <- int_getenv int_of_str "RABBITMQ_PORT" 5672 ;;
  mq_vhost <- ask (fun w => getenv w "RABBITMQ_VHOST" "/") ;;
  mq_user <- ask (fun w => getenv w "RABBITMQ_USER" "stock_analysis") ;;
  mq_pw <- ask (fun w => getenv w "RABBITMQ_PASSWORD" "stock_password") ;;
  ret {| service_name := name;
         service_version := version;
         service_port := port;
         startup_time := now;
         is_ready := false;
         postgres_config :=
           {| pg_host := pg_host; pg_port := pg_port;
              pg_database := pg_db; pg_user := pg_user;
              pg_password := pg_pw |};
         redis_config :=
           {| redis_host := rd_host; redis_port := rd_port;
              decode_responses := true |};
         rabbitmq_config :=
           {| rabbitmq_host := mq_host; rabbitmq_port := mq_port;
              virtual_host := mq_vhost; username := mq_user;
              password := mq_pw |} |}.

(** [create_service_health_app]: a fresh process constructs the checker
    and builds the application around it. *)
Definition create_service_health_app (w : World) (name version : string)
    : result (Proc HealthChecker) :=
  match __init__ name version w {| self := tt; steps := O; io := [] |} with
  | (Ret h, p) => Ret {| self := h; steps := steps p; io := io p |}
  | (Raise e, _) => Raise e
  end.

End Construction.

(** *** Dependency probes *)

Definition check_database : M HealthChecker bool :=
  try_except_Exception
    (cfg <- attr postgres_config ;;
     s <- observe (fun w n => psycopg2 w n cfg) ;;
     emit (Connect Postgres) ;;
     call (pg_connect s) ;;
     call (pg_cursor s) ;;
     call (pg_execute s) ;;
     call (pg_cursor_close s) ;;
     call (pg_conn_close s) ;;
     ret true)
    (fun e =>
       emit (Print ("Database check failed: " ++ str_exn e)) ;;
       ret false).

Definition check_redis : M HealthChecker bool :=
  try_except_Exception
    (cfg <- attr redis_config ;;
     s <- observe (fun w n => redis_py w n cfg) ;;
     call (redis_init s) ;;
     emit (Connect Redis) ;;
     call (redis_ping s) ;;
     ret true)
    (fun e =>
       emit (Print ("Redis check failed: " ++ str_exn e)) ;;
       ret false).

Definition check_rabbitmq : M HealthChecker bool :=
  try_except_Exception
    (cfg <- attr rabbitmq_config ;;
     s <- observe (fun w n => pika w n cfg) ;;
     call (pika_credentials s) ;;
     call (pika_parameters s) ;;
     emit (Connect RabbitMQ) ;;
     call (pika_connect s) ;;
     call (pika_close s) ;;
     ret true)
    (fun e =>
       emit (Print ("RabbitMQ check failed: " ++ str_exn e)) ;;
       ret false).

(** *** Status reports *)

Definition get_system_metrics : M HealthChecker json :=
  cpu <- observe cpu_percent ;;
  vm1 <- observe psutil_virtual_memory ;;
  vm2 <- observe psutil_virtual_memory ;;
  disk <- observe disk_percent ;;
  pid <- ask getpid ;;
  threads <- observe num_threads ;;
  ret (JObj [("cpu_percent", JFloat cpu);
             ("memory_percent", JFloat (vm_percent vm1));
             ("memory_mb", JFloat (Qmake (vm_used vm2) (1024 * 1024)));
             ("disk_percent", JFloat disk);
             ("pid", JInt pid);
             ("threads", JInt threads)]).

Definition get_health_status : M HealthChecker json :=
  now <- observe utcnow ;;
  started <- attr startup_time ;;
  let uptime := total_seconds (sub_datetime now started) in
  ready <- attr is_ready ;;
  name <- attr service_name ;;
  version <- attr service_version ;;
  stamp <- observe utcnow ;;
  metrics <- get_system_metrics ;;
  ready' <- attr is_ready ;;
  port <- attr service_port ;;
  node_env <- ask (fun w => getenv w "NODE_ENV" "development") ;;
  ret (JObj [("status", JStr (if ready then "healthy" else "starting"));
             ("service", JStr name);
             ("version", JStr version);
             ("timestamp", JStr (isoformat stamp));
             ("uptime_seconds", JFloat uptime);
             ("metrics", metrics);
             ("details", JObj [("ready", JBool ready');
                               ("port", JInt port);
                               ("environment", JStr node_env)])]).

Definition get_readiness_status : M HealthChecker json :=
  service <- attr is_ready ;;
  database <- check_database ;;
  redis <- check_redis ;;
  rabbitmq <- check_rabbitmq ;;
  let checks := [("service", service); ("database", database);
                 ("redis", redis); ("rabbitmq", rabbitmq)] in
  let all_ready := all (values checks) in
  name <- attr service_name ;;
  stamp <- observe utcnow ;;
  ret (JObj [("ready", JBool all_ready);
             ("service", JStr name);
             ("checks", json_of_checks checks);
             ("timestamp", JStr (isoformat stamp))]).

(** *** The application of [create_health_app] *)

Definition startup_event : M HealthChecker unit :=
  asyncio_sleep 2 ;;
  assign (set_is_ready true).

Definition health_check : M HealthChecker Response :=
  status_data <- get_health_status ;;
  ready <- attr is_ready ;;
  ret (JSONResponse status_data
         (if ready then HTTP_200_OK else HTTP_503_SERVICE_UNAVAILABLE)).

Definition liveness_check : M HealthChecker json :=
  name <- attr service_name ;;
  stamp <- observe utcnow ;;
  ret (JObj [("status", JStr "alive");
             ("service", JStr name);
             ("timestamp", JStr (isoformat stamp))]).

Definition readiness_check : M HealthChecker Response :=
  status_data <- get_readiness_status ;;
  ready <- getitem status_data "ready" ;;
  ret (JSONResponse status_data
         (if truth ready then HTTP_200_OK
          else HTTP_503_SERVICE_UNAVAILABLE)).

Definition root : M HealthChecker json :=
  name <- attr service_name ;;
  version <- attr service_version ;;
  ret (JObj [("service", JStr name);
             ("version", JStr version);
             ("health_endpoint", JStr "/health");
             ("liveness_endpoint", JStr "/health/live");
             ("readiness_endpoint", JStr "/health/ready");
             ("api_docs", JStr "/docs")]).

(** The routing table. *)
Definition serve (r : route) : M HealthChecker Response :=
  match r with
  | Health => health_check
  | HealthLive => respond_dict liveness_check
  | HealthReady => readiness_check
  | Root => respond_dict root
  end.

(** What the application does on an event; the startup handler answers
    nothing. *)
Definition app (ev : app_event) : M HealthChecker (option Response) :=
  match ev with
  | Startup => startup_event ;; ret None
  | GET r => resp <- serve r ;; ret (Some resp)
  end.

End HealthCheck.

(** * services/intelligent-core-service/health.py *)

Module IntelligentCore.

Definition SERVICE_NAME : string := "intelligent-core-service".
Definition SERVICE_VERSION : string := "1.0.0".

(** The module's globals that are computed when it is imported. *)
Record Globals : Type := {
  SERVICE_PORT : Z;
  startup_time : datetime;
  is_ready : bool
}.

(** [global is_ready; is_ready = b] *)
Definition set_is_ready (b : bool) (g : Globals) : Globals :=
  {| SERVICE_PORT := SERVICE_PORT g;
     startup_time := startup_time g;
     is_ready := b |}.

Section Loading.

Variable int_of_str : string -> option Z.

(** The top-level statements of the module, in order. *)
Definition module_body : M unit Globals :=
  port <- int_getenv int_of_str "SERVICE_PORT" 8001 ;;
  now <- observe utcnow ;;
  ret {| SERVICE_PORT := port; startup_time := now; is_ready := false |}.

Definition import_module (w : World) : result (Proc Globals) :=
  match module_body w {| self := tt; steps := O; io := [] |} with
  | (Ret g, p) => Ret {| self := g; steps := steps p; io := io p |}
  | (Raise e, _) => Raise e
  end.

End Loading.

Definition check_database_connection : M Globals bool := ret true.

Definition check_redis_connection : M Globals bool := ret true.

Definition check_rabbitmq_connection : M Globals bool := ret true.

Definition startup_event : M Globals unit :=
  asyncio_sleep 2 ;;
  assign (set_is_ready true).

Definition health_check : M Globals Response :=
  now <- observe utcnow ;;
  started <- attr startup_time ;;
  let uptime := total_seconds (sub_datetime now started) in
  ready <- attr is_ready ;;
  stamp <- observe utcnow ;;
  ready' <- attr is_ready ;;
  cpu <- observe cpu_percent ;;
  vm <- observe psutil_virtual_memory ;;
  pid <- ask getpid ;;
  let health_status :=
    JObj [("status", JStr (if ready then "healthy" else "starting"));
          ("service", JStr SERVICE_NAME);
          ("version", JStr SERVICE_VERSION);
          ("timestamp", JStr (isoformat stamp));
          ("uptime_seconds", JFloat uptime);
          ("details", JObj [("ready", JBool ready');
                            ("cpu_percent", JFloat cpu);
                            ("memory_percent", JFloat (vm_percent vm));
                            ("pid", JInt pid)])] in
  ready'' <- attr is_ready ;;
  ret (JSONResponse health_status
         (if ready'' then HTTP_200_OK else HTTP_503_SERVICE_UNAVAILABLE)).

Definition liveness_check : M Globals json :=
  stamp <- observe utcnow ;;
  ret (JObj [("status", JStr "alive");
             ("service", JStr SERVICE_NAME);
             ("timestamp", JStr (isoformat stamp))]).

Definition readiness_check : M Globals Response :=
  database <- check_database_connection ;;
  redis <- check_redis_connection ;;
  rabbitmq <- check_rabbitmq_connection ;;
  let checks := [("database", database); ("redis", redis);
                 ("rabbitmq", rabbitmq)] in
  ready <- attr is_ready ;;
  let all_ready := all (values checks) && ready in
  stamp <- observe utcnow ;;
  ret (JSONResponse
         (JObj [("ready", JBool all_ready);
                ("service", JStr SERVICE_NAME);
                ("checks", json_of_checks checks);
                ("timestamp", JStr (isoformat stamp))])
         (if all_ready then HTTP_200_OK
          else HTTP_503_SERVICE_UNAVAILABLE)).

Definition root : M Globals json :=
  ret (JObj [("service", JStr SERVICE_NAME);
             ("version", JStr SERVICE_VERSION);
             ("description",
              JStr "Intelligent Core Service - Analysis and Intelligence Engine");
             ("health_endpoint", JStr "/health");
             ("api_docs", JStr "/docs")]).

Definition serve (r : route) : M Globals Response :=
  match r with
  | Health => health_check
  | HealthLive => respond_dict liveness_check
  | HealthReady => readiness_check
  | Root => respond_dict root
  end.

Definition app (ev : app_event) : M Globals (option Response) :=
  match ev with
  | Startup => startup_event ;; ret None
  | GET r => resp <- serve r ;; ret (Some resp)
  end.

End IntelligentCore.

(** * Reading a response *)

(** The [checks] object of a readiness body, as a dict of booleans; [None]
    when the body has no such object or a value in it is not a boolean. *)
Fixpoint bools_of (d : list (string * json)) : option (list (string * bool)) :=
  match d with
  | [] => Some []
  | (k, JBool b) :: d' => option_map (cons (k, b)) (bools_of d')
  | _ => None
  end.

Definition checks_of (body : json) : option (list (string * bool)) :=
  match field "checks" body with
  | Some (JObj d) => bools_of d
  | _ => None
  end.

(** The [uptime_seconds] a [GET /health] answered, when it answered. *)
Definition uptime_of (r : result (option Response)) : option Q :=
  match r with
  | Ret (Some resp) =>
      match field "uptime_seconds" (content resp) with
      | Some (JFloat q) => Some q
      | _ => None
      end
  | _ => None
  end.

Definition route_eqb (a b : route) : bool :=
  match a, b with
  | Health, Health => true
  | HealthLive, HealthLive => true
  | HealthReady, HealthReady => true
  | Root, Root => true
  | _, _ => false
  end.

(** The answers a run gave to the requests on route [r], in the order of
    the calls. *)
Fixpoint answers_to {A : Type} (r : route) (events : list app_event)
    (answers : list A) : list A :=
  match events, answers with
  | GET r' :: events', a :: answers' =>
      if route_eqb r r' then a :: answers_to r events' answers'
      else answers_to r events' answers'
  | _ :: events', _ :: answers' => answers_to r events' answers'
  | _, _ => []
  end.

Fixpoint somes {A : Type} (l : list (option A)) : list A :=
  match l with
  | [] => []
  | Some a :: l' => a :: somes l'
  | None :: l' => somes l'
  end.

(** The uptimes a run reported on [GET /health], in the order of the
    calls. *)
Definition uptimes (events : list app_event)
    (answers : list (result (option Response))) : list Q :=
  somes (map uptime_of (answers_to Health events answers)).

(** How often a run asked for route [r]. *)
Definition requests_to (r : route) (events : list app_event) : nat :=
  List.length (answers_to r events events).

Definition is_Startup (ev : app_event) : bool :=
  match ev with
  | Startup => true
  | GET _ => false
  end.


(** An answer 200 whose body says ready. *)
Definition ready_200 (r : result (option Response)) : Prop :=
  exists resp, r = Ret (Some resp) /\
    status_code resp = 200 /\
    field "ready" (content resp) = Some (JBool true).

(** The first call of a [try] block that raises, if one does. *)
Fixpoint first_raise (calls : list (option exn)) : option exn :=
  match calls with
  | [] => None
  | Some e :: _ => Some e
  | None :: calls' => first_raise calls'
  end.

Definition pg_calls (s : psycopg2_session) : list (option exn) :=
  [pg_connect s; pg_cursor s; pg_execute s; pg_cursor_close s;
   pg_conn_close s].

Definition redis_calls (s : redis_session) : list (option exn) :=
  [redis_init s; redis_ping s].

Definition pika_calls (s : pika_session) : list (option exn) :=
  [pika_credentials s; pika_parameters s; pika_connect s; pika_close s].

(** Whether what a [try] block raised, if anything, is an instance of
    [Exception]. *)
Definition within_Exception (o : option exn) : bool :=
  match o with
  | Some e => isinstance_Exception e
  | None => true
  end.

(** What a probe whose [try] block behaves as [o] returns or raises. *)
Definition probe_outcome (o : option exn) : result bool :=
  match o with
  | None => Ret true
  | Some e => if isinstance_Exception e then Ret false else Raise e
  end.

Definition is_None {A : Type} (o : option A) : bool :=
  match o with
  | None => true
  | Some _ => false
  end.

(** A wall clock that never steps back. *)
Definition clock_monotone (w : World) : Prop :=
  forall i j : nat, (i <= j)%nat -> utcnow w i <= utcnow w j.

(** ** A concrete world, for examples *)

Definition quiet_session_pg : psycopg2_session :=
  {| pg_connect := None; pg_cursor := None; pg_execute := None;
     pg_cursor_close := None; pg_conn_close := None |}.

Definition quiet_session_redis : redis_session :=
  {| redis_init := None; redis_ping := None |}.

Definition quiet_session_pika : pika_session :=
  {| pika_credentials := None; pika_parameters := None;
     pika_connect := None; pika_close := None |}.

(** No environment variable set, every dependency reachable, the clock
    advancing by a second per reading from 2023-11-14T22:13:20. *)
Definition calm_world : World :=
  {| environ := fun _ => None;
     utcnow := fun n => (1700000000 + Z.of_nat n) * 1000000;
     psycopg2 := fun _ _ => quiet_session_pg;
     redis_py := fun _ _ => quiet_session_redis;
     pika := fun _ _ => quiet_session_pika;
     cpu_percent := fun _ => Qmake 25 2;
     psutil_virtual_memory := fun _ => {| vm_percent := Qmake 40 1;
                                          vm_used := 2147483648 |};
     disk_percent := fun _ => Qmake 55 1;
     num_threads := fun _ => 4;
     getpid := 4242 |}.

(** [calm_world] with other behaviour of the three dependencies. *)
Definition with_peers (pg : psycopg2_session) (rd : redis_session)
    (mq : pika_session) (w : World) : World :=
  {| environ := environ w;
     utcnow := utcnow w;
     psycopg2 := fun _ _ => pg;
     redis_py := fun _ _ => rd;
     pika := fun _ _ => mq;
     cpu_percent := cpu_percent w;
     psutil_virtual_memory := psutil_virtual_memory w;
     disk_percent := disk_percent w;
     num_threads := num_threads w;
     getpid := getpid w |}.

(** [w] with other environment variables. *)
Definition with_environ (env : string -> option string) (w : World) : World :=
  {| environ := env;
     utcnow := utcnow w;
     psycopg2 := psycopg2 w;
     redis_py := redis_py w;
     pika := pika w;
     cpu_percent := cpu_percent w;
     psutil_virtual_memory := psutil_virtual_memory w;
     disk_percent := disk_percent w;
     num_threads := num_threads w;
     getpid := getpid w |}.

Definition broker_down : pika_session :=
  {| pika_credentials := None; pika_parameters := None;
     pika_connect := Some (Exc "AMQPConnectionError" "Connection refused");
     pika_close := None |}.


(** The checker of a service called "broker-gateway", as constructed in
    [calm_world], before and after startup. *)
Definition sample_checker (ready : bool) : HealthCheck.HealthChecker :=
  {| HealthCheck.service_name := "broker-gateway";
     HealthCheck.service_version := "1.0.0";
     HealthCheck.service_port := 8000;
     HealthCheck.startup_time := 1700000000 * 1000000;
     HealthCheck.is_ready := ready;
     HealthCheck.postgres_config :=
       {| pg_host := "localhost"; pg_port := 5432;
          pg_database := "aktienanalyse_event_store";
          pg_user := "stock_analysis"; pg_password := "secure_password" |};
     HealthCheck.redis_config :=
       {| redis_host := "localhost"; redis_port := 6379;
          decode_responses := true |};
     HealthCheck.rabbitmq_config :=
       {| rabbitmq_host := "localhost"; rabbitmq_port := 5672;
          virtual_host := "/"; username := "stock_analysis";
          password := "stock_password" |} |}.

Definition sample_proc (ready : bool) : Proc HealthCheck.HealthChecker :=
  {| self := sample_checker ready; steps := 1%nat; io := [] |}.

(** The connections of world [w] raise nothing but instances of
    [Exception] when opened with the configurations of checker [h]. *)
Definition raises_only_Exception (w : World) (h : HealthCheck.HealthChecker)
    : Prop :=
  forall n : nat,
    within_Exception
      (first_raise (pg_calls (psycopg2 w n (HealthCheck.postgres_config h))))
    = true /\
    within_Exception
      (first_raise (redis_calls (redis_py w n (HealthCheck.redis_config h))))
    = true /\
    within_Exception
      (first_raise (pika_calls (pika w n (HealthCheck.rabbitmq_config h))))
    = true.

(** The environment variables [HealthChecker.__init__] parses as ports. *)
Definition port_variables : list string :=
  ["SERVICE_PORT"; "POSTGRES_PORT"; "REDIS_PORT"; "RABBITMQ_PORT"].

(** The checker [HealthChecker.__init__] builds when no environment
    variable is set. *)
Definition default_checker (name version : string) (now : datetime)
    : HealthCheck.HealthChecker :=
  {| HealthCheck.service_name := name;
     HealthCheck.service_version := version;
     HealthCheck.service_port := 8000;
     HealthCheck.startup_time := now;
     HealthCheck.is_ready := false;
     HealthCheck.postgres_config :=
       {| pg_host := "localhost"; pg_port := 5432;
          pg_database := "aktienanalyse_event_store";
          pg_user := "stock_analysis"; pg_password := "secure_password" |};
     HealthCheck.redis_config :=
       {| redis_host := "localhost"; redis_port := 6379;
          decode_responses := true |};
     HealthCheck.rabbitmq_config :=
       {| rabbitmq_host := "localhost"; rabbitmq_port := 5672;
          virtual_host := "/"; username := "stock_analysis";
          password := "stock_password" |} |}.

(** An environment with one variable. *)
Definition one_variable (key value : string) : string -> option string :=
  fun k => if String.eqb k key then Some value else None.


(** The checks object the specification's scenario expects of the shared
    checker when only the broker is down. *)
Definition scenario_checks : list (string * bool) :=
  [("service", true); ("database", true); ("cache", true); ("broker", false)].

(** A computation frames the shared state when it leaves [self] as it found
    it and takes back no observation. *)
Definition frames {St A : Type} (m : M St A) : Prop :=
  forall w p,
    self (snd (m w p)) = self p /\ (steps p <= steps (snd (m w p)))%nat.

(** * Readers for the effects, the constructor and the application object *)

(** The connections among the visible effects, in the order opened. *)
Fixpoint connects (l : list io_event) : list dependency :=
  match l with
  | [] => []
  | Connect d :: l' => d :: connects l'
  | Print _ :: l' => connects l'
  end.

(** The lines printed among the visible effects, in order. *)
Fixpoint prints (l : list io_event) : list string :=
  match l with
  | [] => []
  | Connect _ :: l' => prints l'
  | Print line :: l' => line :: prints l'
  end.

(** The line a probe's handler prints for what its [try] block raised. *)
Definition failure_line (prefix : string) (o : option exn) : list io_event :=
  match o with
  | Some e =>
      if isinstance_Exception e then [Print (prefix ++ str_exn e)] else []
  | None => []
  end.

(** The visible effects of each probe, from what its session does. *)
Definition database_effects (s : psycopg2_session) : list io_event :=
  Connect Postgres
    :: failure_line "Database check failed: " (first_raise (pg_calls s)).

Definition redis_effects (s : redis_session) : list io_event :=
  ((if is_None (redis_init s) then [Connect Redis] else [])
     ++ failure_line "Redis check failed: " (first_raise (redis_calls s)))%list.

Definition rabbitmq_effects (s : pika_session) : list io_event :=
  ((if is_None (pika_credentials s) && is_None (pika_parameters s)
    then [Connect RabbitMQ] else [])
     ++ failure_line "RabbitMQ check failed: "
          (first_raise (pika_calls s)))%list.

(** What [int(os.getenv(key, default))] evaluates to when it does not
    raise. *)
Definition port_from (int_of_str : string -> option Z) (w : World)
    (key : string) (default : Z) : Z :=
  match environ w key with
  | None => default
  | Some v =>
      match int_of_str v with
      | Some n => n
      | None => default
      end
  end.

(** The checker with every attribute read from the environment of [w]. *)
Definition checker_from_environ (int_of_str : string -> option Z) (w : World)
    (name version : string) (now : datetime) : HealthCheck.HealthChecker :=
  {| HealthCheck.service_name := name;
     HealthCheck.service_version := version;
     HealthCheck.service_port := port_from int_of_str w "SERVICE_PORT" 8000;
     HealthCheck.startup_time := now;
     HealthCheck.is_ready := false;
     HealthCheck.postgres_config :=
       {| pg_host := getenv w "POSTGRES_HOST" "localhost";
          pg_port := port_from int_of_str w "POSTGRES_PORT" 5432;
          pg_database := getenv w "POSTGRES_DB" "aktienanalyse_event_store";
          pg_user := getenv w "POSTGRES_USER" "stock_analysis";
          pg_password := getenv w "POSTGRES_PASSWORD" "secure_password" |};
     HealthCheck.redis_config :=
       {| redis_host := getenv w "REDIS_HOST" "localhost";
          redis_port := port_from int_of_str w "REDIS_PORT" 6379;
          decode_responses := true |};
     HealthCheck.rabbitmq_config :=
       {| rabbitmq_host := getenv w "RABBITMQ_HOST" "localhost";
          rabbitmq_port := port_from int_of_str w "RABBITMQ_PORT" 5672;
          virtual_host := getenv w "RABBITMQ_VHOST" "/";
          username := getenv w "RABBITMQ_USER" "stock_analysis";
          password := getenv w "RABBITMQ_PASSWORD" "stock_password" |} |}.

(** The application object of [HealthChecker.create_health_app]: the
    arguments of the [FastAPI] constructor and the paths the decorators
    register, in the order of the source. *)
Record FastAPI : Type := {
  app_title : string;
  app_version : string;
  docs_url : string;
  routes : list (string * route)
}.

Definition create_health_app (h : HealthCheck.HealthChecker) : FastAPI :=
  {| app_title := HealthCheck.service_name h ++ " Health";
     app_version := HealthCheck.service_version h;
     docs_url := "/health/docs";
     routes := [("/health", Health);
                ("/health/live", HealthLive);
                ("/health/ready", HealthReady);
                ("/", Root)] |}.

(** The route behind the path a body advertises under key [k]. *)
Definition advertised (app : FastAPI) (body : json) (k : string)
    : option route :=
  match field k body with
  | Some (JStr path) => assoc path (routes app)
  | _ => None
  end.

(** The line a failed check prints, as a list: empty when nothing was
    raised. *)
Definition line_of (prefix : string) (o : option exn) : list string :=
  match o with
  | Some e => [prefix ++ str_exn e]
  | None => []
  end.

(** The environment holding the variables of an association list. *)
Definition environ_of (vars : list (string * string))
    : string -> option string :=
  fun k => assoc k vars.

(** * lxc-build/scripts/health-check.py *)

(** [d[k] = v] on a dict: the value is replaced where the key is, a new
    key goes to the end. *)
Fixpoint setitem {A : Type} (d : list (string * A)) (k : string) (v : A)
    : list (string * A) :=
  match d with
  | [] => [(k, v)]
  | (k', v') :: d' =>
      if String.eqb k k' then (k, v) :: d' else (k', v') :: setitem d' k v
  end.

(** [str] of an integer. *)
Definition str_int (z : Z) : string := NilZero.string_of_int (Z.to_int z).

(** [str.strip()] on ASCII text; the scripts take the builtin as a
    parameter. *)
Definition strip_ascii (s : string) : string :=
  string_of_list_ascii (rev (lstrip (rev (lstrip (list_ascii_of_string s))))).

Module HealthCheckScript.

(** What [subprocess.run(..., capture_output=True, text=True)] returns. *)
Record CompletedProcess : Type := {
  returncode : Z;
  stdout : string;
  stderr : string
}.

(** The script's process: the host it runs on, which answers the n-th
    command the process runs, the commands run so far and the documents
    printed so far, oldest first. A document is kept as the value given to
    [json.dumps]. *)
Record Script : Type := {
  subprocess : nat -> list string -> result CompletedProcess;
  ran : list (list string);
  printed : list json
}.

(** [subprocess.run(argv, ...)] *)
Definition subprocess_run (argv : list string) : M Script CompletedProcess :=
  fun _ p =>
    (subprocess (self p) (steps p) argv,
     {| self := {| subprocess := subprocess (self p);
                   ran := (ran (self p) ++ [argv])%list;
                   printed := printed (self p) |};
        steps := S (steps p);
        io := io p |}).

(** [print(json.dumps(doc, indent=2))] *)
Definition print_json (doc : json) : M Script unit :=
  fun _ p =>
    (Ret tt,
     {| self := {| subprocess := subprocess (self p);
                   ran := ran (self p);
                   printed := (printed (self p) ++ [doc])%list |};
        steps := steps p;
        io := io p |}).

(** [sys.exit(code)] raises [SystemExit] carrying the code. *)
Definition sys_exit {A : Type} (code : Z) : M Script A :=
  raise (BaseExc SystemExit (str_int code)).

Definition check_service_status (service_name : string)
    : M Script (bool * string) :=
  try_except_Exception
    (result <- subprocess_run ["systemctl"; "is-active"; service_name] ;;
     let is_active := returncode result =? 0 in
     let status := if is_active then "active" else "inactive" in
     ret (is_active, "Service " ++ service_name ++ " is " ++ status))
    (fun e => ret (false, "Failed to check " ++ service_name ++ ": "
                            ++ str_exn e)).

Definition check_postgresql : M Script (bool * string) :=
  try_except_Exception
    (result <- subprocess_run ["pg_isready"; "-h"; "localhost"; "-p"; "5432"] ;;
     if returncode result =? 0
     then ret (true, "PostgreSQL is accepting connections")
     else ret (false, "PostgreSQL is not accepting connections"))
    (fun e => ret (false, "PostgreSQL check failed: " ++ str_exn e)).

Definition check_rabbitmq : M Script (bool * string) :=
  try_except_Exception
    (result <- subprocess_run ["rabbitmqctl"; "status"] ;;
     if returncode result =? 0
     then ret (true, "RabbitMQ is running")
     else ret (false, "RabbitMQ is not running"))
    (fun e => ret (false, "RabbitMQ check failed: " ++ str_exn e)).

(** The services [main] looks up in systemd, in its order. *)
Definition services : list string :=
  ["stock-analysis-broker-gateway";
   "stock-analysis-intelligent-core";
   "stock-analysis-event-bus";
   "stock-analysis-monitoring";
   "stock-analysis-frontend"].

(** [for service in services: checks[service] = check_service_status(service)] *)
Fixpoint check_services (names : list string)
    (checks : list (string * (bool * string)))
    : M Script (list (string * (bool * string))) :=
  match names with
  | [] => ret checks
  | service :: names' =>
      verdict <- check_service_status service ;;
      check_services names' (setitem checks service verdict)
  end.

(** The dict comprehension over [checks.items()]. *)
Definition checks_document (checks : list (string * (bool * string)))
    : list (string * json) :=
  fold_left
    (fun doc item =>
       setitem doc (fst item)
         (JObj [("healthy", JBool (fst (snd item)));
                ("message", JStr (snd (snd item)))]))
    checks [].

Section Builtin.

Variable str_strip : string -> string.

Definition check_redis : M Script (bool * string) :=
  try_except_Exception
    (result <- subprocess_run ["redis-cli"; "-a"; "changeme"; "ping"] ;;
     if String.eqb (str_strip (stdout result)) "PONG"
     then ret (true, "Redis is responding to ping")
     else ret (false, "Redis is not responding"))
    (fun e => ret (false, "Redis check failed: " ++ str_exn e)).

Definition main : M Script unit :=
  postgresql <- check_postgresql ;;
  redis <- check_redis ;;
  rabbitmq <- check_rabbitmq ;;
  checks <- check_services services
              [("postgresql", postgresql); ("redis", redis);
               ("rabbitmq", rabbitmq)] ;;
  let all_healthy := all (map (fun verdict => fst verdict) (values checks)) in
  date <- subprocess_run ["date"; "-u"; "+%Y-%m-%dT%H:%M:%SZ"] ;;
  let output :=
    JObj [("healthy", JBool all_healthy);
          ("timestamp", JStr (str_strip (stdout date)));
          ("checks", JObj (checks_document checks))] in
  print_json output ;;
  sys_exit (if all_healthy then 0 else 1).

End Builtin.

End HealthCheckScript.

(** A command that returned with exit status 0. *)
Definition exited_0 (r : result HealthCheckScript.CompletedProcess) : bool :=
  match r with
  | Ret c => HealthCheckScript.returncode c =? 0
  | Raise _ => false
  end.

(** A command that returned and wrote PONG, surrounding whitespace apart. *)
Definition wrote_PONG (str_strip : string -> string)
    (r : result HealthCheckScript.CompletedProcess) : bool :=
  match r with
  | Ret c => String.eqb (str_strip (HealthCheckScript.stdout c)) "PONG"
  | Raise _ => false
  end.

(** The commands of the host raise nothing but instances of
    [Exception]. *)
Definition host_raises_only_Exception (s : HealthCheckScript.Script) : Prop :=
  forall n argv e,
    HealthCheckScript.subprocess s n argv = Raise e ->
    isinstance_Exception e = true.

(** The script's process after one more command. *)
Definition after_command (argv : list string)
    (p : Proc HealthCheckScript.Script) : Proc HealthCheckScript.Script :=
  {| self := {| HealthCheckScript.subprocess :=
                  HealthCheckScript.subprocess (self p);
                HealthCheckScript.ran :=
                  (HealthCheckScript.ran (self p) ++ [argv])%list;
                HealthCheckScript.printed :=
                  HealthCheckScript.printed (self p) |};
     steps := S (steps p);
     io := io p |}.

(** The commands [main] runs, in its order. *)
Definition main_commands : list (list string) :=
  [["pg_isready"; "-h"; "localhost"; "-p"; "5432"];
   ["redis-cli"; "-a"; "changeme"; "ping"];
   ["rabbitmqctl"; "status"];
   ["systemctl"; "is-active"; "stock-analysis-broker-gateway"];
   ["systemctl"; "is-active"; "stock-analysis-intelligent-core"];
   ["systemctl"; "is-active"; "stock-analysis-event-bus"];
   ["systemctl"; "is-active"; "stock-analysis-monitoring"];
   ["systemctl"; "is-active"; "stock-analysis-frontend"];
   ["date"; "-u"; "+%Y-%m-%dT%H:%M:%SZ"]].

(** What the eight checks of [main] find on a host, from the command run
    as the n-th on. *)
Definition main_verdicts (str_strip : string -> string)
    (s : HealthCheckScript.Script) (n : nat) : list bool :=
  let answer k := HealthCheckScript.subprocess s (k + n)%nat
                    (nth k main_commands []) in
  [exited_0 (answer 0%nat); wrote_PONG str_strip (answer 1%nat);
   exited_0 (answer 2%nat); exited_0 (answer 3%nat);
   exited_0 (answer 4%nat); exited_0 (answer 5%nat);
   exited_0 (answer 6%nat); exited_0 (answer 7%nat)].

(** The [healthy] flags of a checks document, in its order. *)
Definition healthy_flags (doc : list (string * json)) : list (option json) :=
  map (fun item => field "healthy" (snd item)) doc.

(** A host on which every command exits with the given status and writes
    the given text. *)
Definition uniform_host (code : Z) (out : string)
    : Proc HealthCheckScript.Script :=
  {| self := {| HealthCheckScript.subprocess :=
                  fun _ _ => Ret {| HealthCheckScript.returncode := code;
                                    HealthCheckScript.stdout := out;
                                    HealthCheckScript.stderr := "" |};
                HealthCheckScript.ran := [];
                HealthCheckScript.printed := [] |};
     steps := 0;
     io := [] |}.

(** The script's process after the commands of a list, in order. *)
Definition after_commands (argvs : list (list string))
    (p : Proc HealthCheckScript.Script) : Proc HealthCheckScript.Script :=
  fold_left (fun q argv => after_command argv q) argvs p.

(** The keys of the checks of [main], in its order. *)
Definition check_names : list string :=
  (["postgresql"; "redis"; "rabbitmq"] ++ HealthCheckScript.services)%list.

(** What [main] does once its eight checks are in [checks]. *)
Definition main_finish (str_strip : string -> string)
    (checks : list (string * (bool * string)))
    : M HealthCheckScript.Script unit :=
  let all_healthy := all (map (fun verdict => fst verdict) (values checks)) in
  date <- HealthCheckScript.subprocess_run
            ["date"; "-u"; "+%Y-%m-%dT%H:%M:%SZ"] ;;
  let output :=
    JObj [("healthy", JBool all_healthy);
          ("timestamp", JStr (str_strip (HealthCheckScript.stdout date)));
          ("checks", JObj (HealthCheckScript.checks_document checks))] in
  HealthCheckScript.print_json output ;;
  HealthCheckScript.sys_exit (if all_healthy then 0 else 1).

(** A host that has none of the commands installed. *)
Definition bare_host : Proc HealthCheckScript.Script :=
  {| self := {| HealthCheckScript.subprocess :=
                  fun _ argv =>
                    Raise (Exc "FileNotFoundError"
                             ("[Errno 2] No such file or directory: '"
                                ++ hd "" argv ++ "'"));
                HealthCheckScript.ran := [];
                HealthCheckScript.printed := [] |};
     steps := 0;
     io := [] |}.

(** A host where every command succeeds and writes PONG, but [date] is
    not installed. *)
Definition dateless_host : Proc HealthCheckScript.Script :=
  {| self := {| HealthCheckScript.subprocess :=
                  fun _ argv =>
                    if String.eqb (hd "" argv) "date"
                    then Raise (Exc "FileNotFoundError"
                                  "[Errno 2] No such file or directory: 'date'")
                    else Ret {| HealthCheckScript.returncode := 0;
                                HealthCheckScript.stdout := "PONG";
                                HealthCheckScript.stderr := "" |};
                HealthCheckScript.ran := [];
                HealthCheckScript.printed := [] |};
     steps := 0;
     io := [] |}.

(** * The entry point of shared/health_check.py *)

(** The arguments [uvicorn.run] is called with. *)
Record Uvicorn : Type := {
  uvicorn_app : FastAPI;
  uvicorn_host : string;
  uvicorn_port : Z
}.

(** The block under [if __name__ == "__main__"], up to the call of
    [uvicorn.run], which serves until the process ends. *)
Definition main_block (int_of_str : string -> option Z)
    : M unit (HealthCheck.HealthChecker * Uvicorn) :=
  service_name <- ask (fun w => getenv w "SERVICE_NAME" "example-service") ;;
  port <- int_getenv int_of_str "SERVICE_PORT" 8000 ;;
  checker <- HealthCheck.__init__ int_of_str service_name "1.0.0" ;;
  ret (checker,
       {| uvicorn_app := create_health_app checker;
          uvicorn_host := "0.0.0.0";
          uvicorn_port := port |}).

(** * tests/integration/test_infrastructure_integration.py *)

Module IntegrationTest.

(** What the test reads of a [requests.Response]: its status code and what
    its [json()] returns or raises. *)
Record HttpResponse : Type := {
  http_status : Z;
  http_json : result json
}.

(** [TEST_CONFIG['services']], in the order of the source. *)
Definition services : list (string * Z) :=
  [("intelligent-core-service", 8001);
   ("broker-gateway-service", 8002);
   ("event-bus-service", 8003);
   ("monitoring-service", 8004);
   ("frontend-service", 8005)].

(** [isinstance(e, requests.exceptions.ConnectionError)]: the class and
    the classes the library derives from it. *)
Definition is_ConnectionError (e : exn) : bool :=
  match e with
  | Exc cls _ =>
      existsb (String.eqb cls)
        ["requests.exceptions.ConnectionError";
         "requests.exceptions.ProxyError";
         "requests.exceptions.SSLError";
         "requests.exceptions.ConnectTimeout"]
  | BaseExc _ _ => false
  end.

(** A call that returns or raises without touching the process. *)
Definition lift {St A : Type} (r : result A) : M St A := fun _ p => (r, p).

Section Requests.

(** [requests.get(url, timeout=5)] *)
Variable requests_get : string -> result HttpResponse.

(** The body of the loop of [test_05_service_health_checks]. *)
Definition check_service (service_name : string) (port : Z) : M unit unit :=
  fun w p =>
    match
      (response <- lift (requests_get
                           ("http://localhost:" ++ str_int port ++ "/health")) ;;
       if http_status response =? 200
       then health_data <- lift (http_json response) ;;
            emit (Print ("✓ " ++ service_name ++ " is healthy"))
       else if http_status response =? 503
       then emit (Print ("⚠ " ++ service_name ++ " is starting up"))
       else emit (Print ("✗ " ++ service_name ++ " returned status "
                           ++ str_int (http_status response)))) w p
    with
    | (Ret a, p') => (Ret a, p')
    | (Raise e, p') =>
        if is_ConnectionError e
        then emit (Print ("✗ " ++ service_name ++ " is not running (port "
                            ++ str_int port ++ ")")) w p'
        else if isinstance_Exception e
        then emit (Print ("✗ " ++ service_name ++ " health check failed: "
                            ++ str_exn e)) w p'
        else (Raise e, p')
    end.

Fixpoint check_services (items : list (string * Z)) : M unit unit :=
  match items with
  | [] => ret tt
  | (service_name, port) :: items' =>
      check_service service_name port ;; check_services items'
  end.

Definition test_05_service_health_checks : M unit unit :=
  emit (Print (String (ascii_of_nat 10) "[TEST] Service health checks...")) ;;
  check_services services.

End Requests.

End IntegrationTest.

(** What a client of a modelled handler receives. *)
Definition http_of_answer {St : Type} (x : result Response * Proc St)
    : result IntegrationTest.HttpResponse :=
  match fst x with
  | Ret resp =>
      Ret {| IntegrationTest.http_status := status_code resp;
             IntegrationTest.http_json := Ret (content resp) |}
  | Raise e => Raise e
  end.

(** What the test receives raises nothing but instances of
    [Exception]. *)
Definition requests_raise_only_Exception
    (requests_get : string -> result IntegrationTest.HttpResponse) : Prop :=
  forall url,
    match requests_get url with
    | Ret response =>
        match IntegrationTest.http_json response with
        | Ret _ => True
        | Raise e => isinstance_Exception e = true
        end
    | Raise e => isinstance_Exception e = true
    end.

(** The test's process after printing a line. *)
Definition after_line (line : string) (p : Proc unit) : Proc unit :=
  {| self := self p; steps := steps p; io := (io p ++ [Print line])%list |}.

(** An answer to every request of the test: the core service's
    GET /health on port 8001, a refused connection elsewhere. *)
Definition only_core_answers (w : World)
    (g : Proc IntelligentCore.Globals)
    : string -> result IntegrationTest.HttpResponse :=
  fun url =>
    if String.eqb url "http://localhost:8001/health"
    then http_of_answer (IntelligentCore.serve Health w g)
    else Raise (Exc "requests.exceptions.ConnectionError"
                  "Connection refused").

(** A process of the core service, started or not. *)
Definition sample_core (ready : bool) : Proc IntelligentCore.Globals :=
  {| self := {| IntelligentCore.SERVICE_PORT := 8001;
                IntelligentCore.startup_time := 1700000000 * 1000000;
                IntelligentCore.is_ready := ready |};
     steps := 1;
     io := [] |}.

(** The process a test or an entry point starts in. *)
Definition fresh : Proc unit := {| self := tt; steps := 0; io := [] |}.

(** The checker and the server arguments of the entry point where only
    SERVICE_PORT is set, to 8080. *)
Definition checker_8080 : HealthCheck.HealthChecker :=
  checker_from_environ int_ascii
    (with_environ (one_variable "SERVICE_PORT" "8080") calm_world)
    "example-service" "1.0.0" (1700000000 * 1000000).

Definition server_8080 : Uvicorn :=
  {| uvicorn_app := create_health_app checker_8080;
     uvicorn_host := "0.0.0.0";
     uvicorn_port := 8080 |}.

(** * Properties *)

(** ** The model on concrete inputs *)

Example isoformat_epoch : isoformat 0 = "1970-01-01T00:00:00".
Proof. reflexivity. Qed.

Example isoformat_2023 :
  isoformat (1700000000 * 1000000 + 5) = "2023-11-14T22:13:20.000005".
Proof. reflexivity. Qed.

Example isoformat_leap_day :
  isoformat (951782400 * 1000000) = "2000-02-29T00:00:00".
Proof. reflexivity. Qed.

Example int_ascii_samples :
  map int_ascii ["8000"; " 80_00 "; "-5"; "+7"; "abc"; ""; "8_"; "8__0"; "80.0"]
  = [Some 8000; Some 8000; Some (-5); Some 7; None; None; None; None; None].
Proof. reflexivity. Qed.

Example health_before_startup :
  fst (run HealthCheck.app calm_world [GET Health] (sample_proc false))
  = [Ret (Some (JSONResponse
       (JObj [("status", JStr "starting");
              ("service", JStr "broker-gateway");
              ("version", JStr "1.0.0");
              ("timestamp", JStr "2023-11-14T22:13:22");
              ("uptime_seconds", JFloat (Qmake 1000000 1000000));
              ("metrics",
               JObj [("cpu_percent", JFloat (Qmake 25 2));
                     ("memory_percent", JFloat (Qmake 40 1));
                     ("memory_mb", JFloat (Qmake 2147483648 1048576));
                     ("disk_percent", JFloat (Qmake 55 1));
                     ("pid", JInt 4242);
                     ("threads", JInt 4)]);
              ("details", JObj [("ready", JBool false);
                                ("port", JInt 8000);
                                ("environment", JStr "development")])])
       503))].
Proof. reflexivity. Qed.

(** ** Framing in the monad *)

Section Framing.

Context {St : Type}.

Lemma frames_ret {A : Type} (a : A) : frames (@ret St A a).
Proof. intros w p. simpl. split; [reflexivity | lia]. Qed.

Lemma frames_raise {A : Type} (e : exn) : frames (@raise St A e).
Proof. intros w p. simpl. split; [reflexivity | lia]. Qed.

Lemma frames_bind {A B : Type} (m : M St A) (k : A -> M St B) :
  frames m -> (forall a, frames (k a)) -> frames (bind m k).
Proof.
  intros Hm Hk w p. unfold bind.
  destruct (Hm w p) as [Hself Hsteps].
  destruct (m w p) as [[a | e] p']; simpl in *.
  - destruct (Hk a w p') as [Hself' Hsteps'].
    split; [congruence | lia].
  - split; [assumption | lia].
Qed.

Lemma frames_attr {A : Type} (f : St -> A) : frames (attr f).
Proof. intros w p. simpl. split; [reflexivity | lia]. Qed.

Lemma frames_observe {A : Type} (f : World -> nat -> A) :
  frames (@observe St A f).
Proof. intros w p. simpl. split; [reflexivity | lia]. Qed.

Lemma frames_ask {A : Type} (f : World -> A) : frames (@ask St A f).
Proof. intros w p. simpl. split; [reflexivity | lia]. Qed.

Lemma frames_emit (ev : io_event) : frames (@emit St ev).
Proof. intros w p. simpl. split; [reflexivity | lia]. Qed.

Lemma frames_call (o : option exn) : frames (@call St o).
Proof. destruct o; [apply frames_raise | apply frames_ret]. Qed.

Lemma frames_getitem (d : json) (k : string) : frames (@getitem St d k).
Proof.
  unfold getitem. destruct (field k d); [apply frames_ret | apply frames_raise].
Qed.

Lemma frames_try_except_Exception {A : Type}
    (body : M St A) (handler : exn -> M St A) :
  frames body -> (forall e, frames (handler e)) ->
  frames (try_except_Exception body handler).
Proof.
  intros Hb Hh w p. unfold try_except_Exception.
  destruct (Hb w p) as [Hself Hsteps].
  destruct (body w p) as [[a | e] p']; simpl in *.
  - split; [assumption | lia].
  - destruct (isinstance_Exception e); simpl.
    + destruct (Hh e w p') as [Hself' Hsteps'].
      split; [congruence | lia].
    + split; [assumption | lia].
Qed.

Lemma frames_respond_dict (handler : M St json) :
  frames handler -> frames (respond_dict handler).
Proof.
  intros H. unfold respond_dict.
  apply frames_bind; [assumption | intros; apply frames_ret].
Qed.

End Framing.

Create HintDb frames.

#[export] Hint Resolve frames_ret frames_raise frames_attr frames_observe
  frames_ask frames_emit frames_call frames_getitem : frames.

(** Takes a straight-line computation apart, bind after bind. *)
Ltac frames_tac :=
  repeat first
    [ apply frames_bind; [ | intros ]
    | apply frames_try_except_Exception; [ | intros ]
    | apply frames_respond_dict
    | solve [ auto with frames ] ].

(** ** Runs *)

Lemma run_concat {St E A : Type} (step : E -> M St A) (w : World)
    (l1 l2 : list E) (p : Proc St) :
  run step w (l1 ++ l2)%list p =
  (fst (run step w l1 p) ++ fst (run step w l2 (snd (run step w l1 p))),
   snd (run step w l2 (snd (run step w l1 p))))%list.
Proof.
  revert p. induction l1 as [| ev l1 IH]; intros p; simpl.
  - destruct (run step w l2 p); reflexivity.
  - destruct (step ev w p) as [r p1]. rewrite IH.
    destruct (run step w l1 p1) as [rs p2]. simpl.
    reflexivity.
Qed.

Lemma run_cons {St E A : Type} (step : E -> M St A) (w : World)
    (ev : E) (l : list E) (p : Proc St) :
  run step w (ev :: l) p =
  (fst (step ev w p) :: fst (run step w l (snd (step ev w p))),
   snd (run step w l (snd (step ev w p)))).
Proof.
  simpl. destruct (step ev w p) as [r p1]. simpl.
  destruct (run step w l p1); reflexivity.
Qed.


Lemma answers_to_cons {A : Type} (r : route) (ev : app_event)
    (events : list app_event) (a : A) (answers : list A) :
  answers_to r (ev :: events) (a :: answers)
  = if (match ev with GET r' => route_eqb r r' | Startup => false end)
    then a :: answers_to r events answers
    else answers_to r events answers.
Proof. destruct ev as [| r']; simpl; [| destruct (route_eqb r r')]; reflexivity. Qed.

(** Every request of a run is answered or raises: the answers to a route
    are as many as the requests to it. *)
Lemma length_answers_to_run {St A : Type} (step : app_event -> M St A)
    (w : World) (r : route) (events : list app_event) (p : Proc St) :
  List.length (answers_to r events (fst (run step w events p)))
  = requests_to r events.
Proof.
  unfold requests_to. revert p.
  induction events as [| ev events IH]; intros p; [reflexivity |].
  rewrite run_cons. cbn [fst]. rewrite !answers_to_cons.
  destruct (match ev with GET r' => route_eqb r r' | Startup => false end);
    simpl; rewrite IH; reflexivity.
Qed.

(** ** Runs of an application whose flag, once set, stays set *)

Section Sticky.

Context {St : Type} (app : app_event -> M St (option Response)).
Context (flag : St -> bool) (w : World) (r : route).
Context (good : result (option Response) -> Prop).

Hypothesis app_flag : forall ev p,
  flag (self (snd (app ev w p))) = flag (self p) || is_Startup ev.

Hypothesis app_good : forall p,
  flag (self p) = true -> good (fst (app (GET r) w p)).

Lemma run_flag (events : list app_event) (p : Proc St) :
  flag (self (snd (run app w events p)))
  = flag (self p) || existsb is_Startup events.
Proof.
  revert p. induction events as [| ev events IH]; intros p.
  - simpl. rewrite orb_false_r. reflexivity.
  - rewrite run_cons. cbn [snd]. rewrite IH, app_flag. simpl.
    rewrite orb_assoc. reflexivity.
Qed.

Lemma run_good (events : list app_event) (p : Proc St) :
  flag (self p) = true ->
  Forall good (answers_to r events (fst (run app w events p))).
Proof.
  revert p. induction events as [| ev events IH]; intros p Hp.
  - constructor.
  - rewrite run_cons. cbn [fst]. rewrite answers_to_cons.
    assert (Hp' : flag (self (snd (app ev w p))) = true)
      by (rewrite app_flag, Hp; reflexivity).
    destruct ev as [| r'].
    + apply IH. exact Hp'.
    + destruct (route_eqb r r') eqn:Er.
      * constructor; [| apply IH; exact Hp'].
        destruct r, r'; try discriminate Er; apply app_good; exact Hp.
      * apply IH. exact Hp'.
Qed.

End Sticky.

(** ** Uptimes along a run *)

Section Uptimes.

Context {St : Type} (app : app_event -> M St (option Response)).
Context (started : St -> datetime) (w : World).

Hypothesis app_started : forall ev p,
  started (self (snd (app ev w p))) = started (self p).

Hypothesis app_steps : forall ev p,
  (steps p <= steps (snd (app ev w p)))%nat.

Hypothesis app_uptime : forall p,
  uptime_of (fst (app (GET Health) w p))
  = Some (total_seconds
            (sub_datetime (utcnow w (steps p)) (started (self p)))).

Hypothesis clock : clock_monotone w.




End Uptimes.

(** Unfolds the monad on a process given by its three fields. *)
Ltac step_py :=
  cbv beta iota zeta delta
    [bind ret raise attr assign observe ask emit call asyncio_sleep
     try_except_Exception respond_dict getitem self steps io].

(** ** The shared [HealthChecker] *)

Section SharedChecker.

Import HealthCheck.

Lemma frames_check_database : frames check_database.
Proof. unfold check_database. frames_tac. Qed.

Lemma frames_check_redis : frames check_redis.
Proof. unfold check_redis. frames_tac. Qed.

Lemma frames_check_rabbitmq : frames check_rabbitmq.
Proof. unfold check_rabbitmq. frames_tac. Qed.

Lemma frames_get_system_metrics : frames get_system_metrics.
Proof. unfold get_system_metrics. frames_tac. Qed.

Lemma frames_get_health_status : frames get_health_status.
Proof.
  unfold get_health_status.
  pose proof frames_get_system_metrics. frames_tac; assumption.
Qed.

Lemma frames_get_readiness_status : frames get_readiness_status.
Proof.
  unfold get_readiness_status.
  pose proof frames_check_database. pose proof frames_check_redis.
  pose proof frames_check_rabbitmq. frames_tac; assumption.
Qed.

Lemma frames_serve (r : route) : frames (serve r).
Proof.
  pose proof frames_get_health_status.
  pose proof frames_get_readiness_status.
  destruct r; simpl;
    unfold health_check, liveness_check, readiness_check, root;
    frames_tac; assumption.
Qed.

(** What a probe answers, from what its [try] block meets. *)

Ltac session_cases s :=
  destruct s;
  repeat match goal with
         | c : option exn |- _ => destruct c as [[? ? | ? ?] |]
         end;
  repeat split; reflexivity.

Lemma check_database_outcome (w : World) (p : Proc HealthChecker) :
  fst (check_database w p)
  = probe_outcome
      (first_raise
         (pg_calls (psycopg2 w (steps p) (postgres_config (self p)))))
  /\ self (snd (check_database w p)) = self p
  /\ steps (snd (check_database w p)) = S (steps p).
Proof.
  destruct p as [h n l]. unfold check_database. step_py.
  session_cases (psycopg2 w n (postgres_config h)).
Qed.

Lemma check_redis_outcome (w : World) (p : Proc HealthChecker) :
  fst (check_redis w p)
  = probe_outcome
      (first_raise
         (redis_calls (redis_py w (steps p) (redis_config (self p)))))
  /\ self (snd (check_redis w p)) = self p
  /\ steps (snd (check_redis w p)) = S (steps p).
Proof.
  destruct p as [h n l]. unfold check_redis. step_py.
  session_cases (redis_py w n (redis_config h)).
Qed.

Lemma check_rabbitmq_outcome (w : World) (p : Proc HealthChecker) :
  fst (check_rabbitmq w p)
  = probe_outcome
      (first_raise
         (pika_calls (pika w (steps p) (rabbitmq_config (self p)))))
  /\ self (snd (check_rabbitmq w p)) = self p
  /\ steps (snd (check_rabbitmq w p)) = S (steps p).
Proof.
  destruct p as [h n l]. unfold check_rabbitmq. step_py.
  session_cases (pika w n (rabbitmq_config h)).
Qed.

(** The readiness report, once the three probes have answered. *)
Lemma readiness_check_run (w : World) (p p1 p2 p3 : Proc HealthChecker)
    (db rd mq : bool) :
  check_database w p = (Ret db, p1) ->
  check_redis w p1 = (Ret rd, p2) ->
  check_rabbitmq w p2 = (Ret mq, p3) ->
  let ready := is_ready (self p) && (db && (rd && (mq && true))) in
  readiness_check w p
  = (Ret (JSONResponse
            (JObj [("ready", JBool ready);
                   ("service", JStr (service_name (self p)));
                   ("checks",
                    JObj [("service", JBool (is_ready (self p)));
                          ("database", JBool db);
                          ("redis", JBool rd);
                          ("rabbitmq", JBool mq)]);
                   ("timestamp", JStr (isoformat (utcnow w (steps p3))))])
            (if ready then 200 else 503)),
     {| self := self p; steps := S (steps p3); io := io p3 |}).
Proof.
  intros H1 H2 H3.
  assert (E1 : self p1 = self p).
  { pose proof (frames_check_database w p) as [E _].
    rewrite H1 in E. exact E. }
  assert (E2 : self p2 = self p1).
  { pose proof (frames_check_redis w p1) as [E _].
    rewrite H2 in E. exact E. }
  assert (E3 : self p3 = self p2).
  { pose proof (frames_check_rabbitmq w p2) as [E _].
    rewrite H3 in E. exact E. }
  unfold readiness_check, get_readiness_status, bind at 1 2 3.
  unfold attr at 1. cbv beta iota.
  unfold bind at 1. rewrite H1. cbv beta iota.
  unfold bind at 1. rewrite H2. cbv beta iota.
  unfold bind at 1. rewrite H3. cbv beta iota zeta.
  unfold bind, attr, observe, ret, getitem. simpl.
  rewrite E3, E2, E1.
  destruct (is_ready (self p)), db, rd, mq; reflexivity.
Qed.

(** *** Readiness *)

(** C1. Whatever the state, once the database, Redis and RabbitMQ probes
    have answered, GET /health/ready answers with [ready] the conjunction
    of the four checks (service, database, redis, rabbitmq): false iff
    one of them is false, true iff all are true; the status code is 200
    exactly when [ready] is true and 503 exactly when it is false. *)
Theorem readiness_ready_iff_all_checks
    (w : World) (p p1 p2 p3 : Proc HealthChecker) (db rd mq : bool) :
  check_database w p = (Ret db, p1) ->
  check_redis w p1 = (Ret rd, p2) ->
  check_rabbitmq w p2 = (Ret mq, p3) ->
  exists resp p' ready,
    serve HealthReady w p = (Ret resp, p') /\
    field "ready" (content resp) = Some (JBool ready) /\
    checks_of (content resp)
    = Some [("service", is_ready (self p)); ("database", db);
            ("redis", rd); ("rabbitmq", mq)] /\
    (ready = false <->
     is_ready (self p) = false \/ db = false \/ rd = false \/ mq = false) /\
    (ready = true <->
     is_ready (self p) = true /\ db = true /\ rd = true /\ mq = true) /\
    (status_code resp = 200 <-> ready = true) /\
    (status_code resp = 503 <-> ready = false).
Proof.
  intros H1 H2 H3. simpl serve.
  rewrite (readiness_check_run w p p1 p2 p3 db rd mq H1 H2 H3).
  exists (JSONResponse
            (JObj [("ready",
                    JBool (is_ready (self p) && (db && (rd && (mq && true)))));
                   ("service", JStr (service_name (self p)));
                   ("checks",
                    JObj [("service", JBool (is_ready (self p)));
                          ("database", JBool db);
                          ("redis", JBool rd);
                          ("rabbitmq", JBool mq)]);
                   ("timestamp", JStr (isoformat (utcnow w (steps p3))))])
            (if is_ready (self p) && (db && (rd && (mq && true)))
             then 200 else 503)).
  eexists.
  exists (is_ready (self p) && (db && (rd && (mq && true)))).
  split; [reflexivity |].
  destruct (is_ready (self p)), db, rd, mq; simpl;
    intuition congruence.
Qed.

Lemma readiness_ready_iff_all_checks_witness :
  exists resp p' ready,
    serve HealthReady
      (with_peers quiet_session_pg quiet_session_redis broker_down
         calm_world) (sample_proc true) = (Ret resp, p') /\
    field "ready" (content resp) = Some (JBool ready) /\
    checks_of (content resp)
    = Some [("service", true); ("database", true);
            ("redis", true); ("rabbitmq", false)] /\
    (ready = false <->
     true = false \/ true = false \/ true = false \/ false = false) /\
    (ready = true <->
     true = true /\ true = true /\ true = true /\ false = true) /\
    (status_code resp = 200 <-> ready = true) /\
    (status_code resp = 503 <-> ready = false).
Proof.
  eapply (readiness_ready_iff_all_checks
            (with_peers quiet_session_pg quiet_session_redis broker_down
               calm_world) (sample_proc true) _ _ _ true true false);
    reflexivity.
Defined.

(** C5, as the specification words it, fails where the broker is down:
    the answer is 503 and not ready, but its checks are keyed service,
    database, redis, rabbitmq, so they are not the dict with the keys
    cache and broker. *)
Lemma scenario_checks_not_answered :
  ~ (exists resp p' checks,
       serve HealthReady
         (with_peers quiet_session_pg quiet_session_redis broker_down
            calm_world) (sample_proc true) = (Ret resp, p') /\
       status_code resp = 503 /\
       field "ready" (content resp) = Some (JBool false) /\
       checks_of (content resp) = Some checks /\
       dict_eqb checks scenario_checks = true).
Proof.
  intros (resp & p' & checks & Hrun & _ & _ & Hchecks & Heq).
  vm_compute in Hrun. inversion Hrun; subst resp p'; clear Hrun.
  vm_compute in Hchecks. inversion Hchecks; subst checks.
  vm_compute in Heq. discriminate.
Qed.

(** C5, amended. After startup, with the database and Redis probes
    answering true and the RabbitMQ probe answering false,
    GET /health/ready answers 503 with ready false, the service name, a
    timestamp and the checks service: true, database: true, redis: true,
    rabbitmq: false, under exactly these four keys. *)
Theorem readiness_with_broker_down
    (w : World) (p p1 p2 p3 : Proc HealthChecker) :
  is_ready (self p) = true ->
  check_database w p = (Ret true, p1) ->
  check_redis w p1 = (Ret true, p2) ->
  check_rabbitmq w p2 = (Ret false, p3) ->
  exists resp p',
    serve HealthReady w p = (Ret resp, p') /\
    status_code resp = 503 /\
    content resp
    = JObj [("ready", JBool false);
            ("service", JStr (service_name (self p)));
            ("checks", JObj [("service", JBool true);
                             ("database", JBool true);
                             ("redis", JBool true);
                             ("rabbitmq", JBool false)]);
            ("timestamp", JStr (isoformat (utcnow w (steps p3))))] /\
    option_map keys (checks_of (content resp))
    = Some ["service"; "database"; "redis"; "rabbitmq"].
Proof.
  intros Hready H1 H2 H3. simpl serve.
  rewrite (readiness_check_run w p p1 p2 p3 true true false H1 H2 H3).
  rewrite Hready. simpl.
  do 2 eexists. repeat split; reflexivity.
Qed.

Lemma readiness_with_broker_down_witness :
  exists resp p',
    serve HealthReady
      (with_peers quiet_session_pg quiet_session_redis broker_down
         calm_world) (sample_proc true) = (Ret resp, p') /\
    status_code resp = 503 /\
    content resp
    = JObj [("ready", JBool false);
            ("service", JStr "broker-gateway");
            ("checks", JObj [("service", JBool true);
                             ("database", JBool true);
                             ("redis", JBool true);
                             ("rabbitmq", JBool false)]);
            ("timestamp", JStr "2023-11-14T22:13:24")] /\
    option_map keys (checks_of (content resp))
    = Some ["service"; "database"; "redis"; "rabbitmq"].
Proof.
  exact (readiness_with_broker_down
           (with_peers quiet_session_pg quiet_session_redis broker_down
              calm_world)
           (sample_proc true)
           {| self := sample_checker true; steps := 2;
              io := [Connect Postgres] |}
           {| self := sample_checker true; steps := 3;
              io := [Connect Postgres; Connect Redis] |}
           {| self := sample_checker true; steps := 4;
              io := [Connect Postgres; Connect Redis; Connect RabbitMQ;
                     Print "RabbitMQ check failed: Connection refused"] |}
           eq_refl eq_refl eq_refl eq_refl).
Defined.

(** *** Health *)



(** *** The state and who writes it *)

Lemma frames_app_GET (r : route) : frames (app (GET r)).
Proof.
  pose proof (frames_serve r). simpl. frames_tac; assumption.
Qed.

Lemma startup_event_run (w : World) (p : Proc HealthChecker) :
  app Startup w p
  = (Ret None,
     {| self := set_is_ready true (self p); steps := steps p; io := io p |}).
Proof. reflexivity. Qed.

Lemma run_GET_frames (w : World) (rs : list route) (p : Proc HealthChecker) :
  self (snd (run app w (map GET rs) p)) = self p.
Proof.
  revert p. induction rs as [| r rs IH]; intros p; [reflexivity |].
  cbn [map]. rewrite run_cons. cbn [snd]. rewrite IH.
  apply (frames_app_GET r w p).
Qed.

(** C8. No request handler writes the state: after GET /health,
    GET /health/live, GET /health/ready or GET /, and after any sequence
    of them, [self] is what it was, with its [is_ready], [startup_time],
    [service_name], [service_version] and three configurations; the
    startup event writes [is_ready], and nothing else. *)
Theorem handlers_leave_state_alone
    (w : World) (p : Proc HealthChecker) (r : route) :
  self (snd (serve r w p)) = self p /\
  is_ready (self (snd (serve r w p))) = is_ready (self p) /\
  startup_time (self (snd (serve r w p))) = startup_time (self p) /\
  service_name (self (snd (serve r w p))) = service_name (self p) /\
  service_version (self (snd (serve r w p))) = service_version (self p) /\
  postgres_config (self (snd (serve r w p))) = postgres_config (self p) /\
  redis_config (self (snd (serve r w p))) = redis_config (self p) /\
  rabbitmq_config (self (snd (serve r w p))) = rabbitmq_config (self p) /\
  (forall rs, self (snd (run app w (map GET rs) p)) = self p) /\
  self (snd (app Startup w p)) = set_is_ready true (self p).
Proof.
  destruct (frames_serve r w p) as [E _]. rewrite E.
  repeat split; try reflexivity.
  intros rs. apply run_GET_frames.
Qed.






(** *** Probes and exceptions *)

Lemma probe_outcome_within (o : option exn) :
  within_Exception o = true -> probe_outcome o = Ret (is_None o).
Proof.
  destruct o as [e |]; simpl; [| reflexivity].
  intros H. rewrite H. reflexivity.
Qed.




(** *** Construction *)

(** C9. With no environment variable set the constructor succeeds and
    builds the checker of the documented defaults: service port 8000,
    PostgreSQL at localhost:5432, Redis at localhost:6379, RabbitMQ at
    localhost:5672 with virtual host "/". A value of SERVICE_PORT,
    POSTGRES_PORT, REDIS_PORT or RABBITMQ_PORT that [int] rejects makes
    the constructor raise ValueError; and nothing else is validated: when
    every port variable that is set parses, the constructor succeeds. *)
Theorem construction_defaults_and_port_parsing
    (int_of_str : string -> option Z) (w : World) (name version : string) :
  ((forall k, environ w k = None) ->
   create_service_health_app int_of_str w name version
   = Ret {| self := default_checker name version (utcnow w 0);
            steps := 1; io := [] |}) /\
  (forall k v,
      In k port_variables -> environ w k = Some v -> int_of_str v = None ->
      exists msg,
        create_service_health_app int_of_str w name version
        = Raise (Exc "ValueError" msg)) /\
  ((forall k v,
       In k port_variables -> environ w k = Some v -> int_of_str v <> None) ->
   exists p0,
     create_service_health_app int_of_str w name version = Ret p0).
Proof.
  split; [| split].
  - intros Hnone.
    unfold create_service_health_app, __init__, int_getenv, getenv. step_py.
    rewrite !Hnone. reflexivity.
  - intros k v Hin Hk Hv.
    unfold create_service_health_app, __init__, int_getenv. step_py.
    repeat match goal with
           | |- context [match environ w ?k with _ => _ end] =>
               let E := fresh "E" in destruct (environ w k) eqn:E
           | |- context [match int_of_str ?v with _ => _ end] =>
               let P := fresh "P" in destruct (int_of_str v) eqn:P
           end;
      try (eexists; reflexivity);
      exfalso; simpl in Hin;
      repeat match goal with
             | H : _ \/ _ |- _ => destruct H
             | H : False |- _ => destruct H
             end; subst k; congruence.
  - intros Hok.
    unfold create_service_health_app, __init__, int_getenv. step_py.
    repeat match goal with
           | |- context [match environ w ?k with _ => _ end] =>
               let E := fresh "E" in destruct (environ w k) eqn:E
           | |- context [match int_of_str ?v with _ => _ end] =>
               let P := fresh "P" in destruct (int_of_str v) eqn:P
           end;
      try (eexists; reflexivity);
      exfalso;
      match goal with
      | E : environ w ?k = Some ?v, P : int_of_str ?v = None |- _ =>
          apply (Hok k v); [simpl; tauto | exact E | exact P]
      end.
Qed.

Lemma construction_defaults_and_port_parsing_witness :
  create_service_health_app int_ascii calm_world "broker-gateway" "1.0.0"
  = Ret {| self := default_checker "broker-gateway" "1.0.0"
                     (1700000000 * 1000000);
           steps := 1; io := [] |}
  /\
  exists msg,
    create_service_health_app int_ascii
      (with_environ (one_variable "REDIS_PORT" "63 79") calm_world)
      "broker-gateway" "1.0.0"
    = Raise (Exc "ValueError" msg).
Proof.
  split.
  - apply (proj1 (construction_defaults_and_port_parsing
                    int_ascii calm_world "broker-gateway" "1.0.0")).
    intros k. reflexivity.
  - apply (proj1 (proj2 (construction_defaults_and_port_parsing
                           int_ascii
                           (with_environ (one_variable "REDIS_PORT" "63 79")
                              calm_world)
                           "broker-gateway" "1.0.0"))
             "REDIS_PORT" "63 79").
    + simpl. tauto.
    + reflexivity.
    + reflexivity.
Defined.

(** *** What the runs of the application need of it *)





End SharedChecker.

(** ** The intelligent core service *)

Section CoreService.

Import IntelligentCore.

Lemma core_frames_serve (r : route) : frames (serve r).
Proof.
  destruct r; simpl;
    unfold health_check, liveness_check, readiness_check, root,
      check_database_connection, check_redis_connection,
      check_rabbitmq_connection;
    frames_tac.
Qed.

Lemma core_frames_app_GET (r : route) : frames (app (GET r)).
Proof.
  pose proof (core_frames_serve r). simpl. frames_tac; assumption.
Qed.


Lemma core_readiness_check_run (w : World) (p : Proc Globals) :
  serve HealthReady w p
  = (Ret (JSONResponse
            (JObj [("ready", JBool (is_ready (self p)));
                   ("service", JStr SERVICE_NAME);
                   ("checks", JObj [("database", JBool true);
                                    ("redis", JBool true);
                                    ("rabbitmq", JBool true)]);
                   ("timestamp", JStr (isoformat (utcnow w (steps p))))])
            (if is_ready (self p) then 200 else 503)),
     {| self := self p; steps := S (steps p); io := io p |}).
Proof. destruct p as [g n l]. reflexivity. Qed.

Lemma core_liveness_check_run (w : World) (p : Proc Globals) :
  serve HealthLive w p
  = (Ret (JSONResponse
            (JObj [("status", JStr "alive");
                   ("service", JStr SERVICE_NAME);
                   ("timestamp", JStr (isoformat (utcnow w (steps p))))])
            200),
     {| self := self p; steps := S (steps p); io := io p |}).
Proof. reflexivity. Qed.

Lemma core_app_is_ready (w : World) (ev : app_event) (p : Proc Globals) :
  is_ready (self (snd (app ev w p))) = is_ready (self p) || is_Startup ev.
Proof.
  destruct ev as [| r].
  - simpl. rewrite orb_true_r. reflexivity.
  - destruct (core_frames_app_GET r w p) as [E _]. rewrite E.
    simpl. rewrite orb_false_r. reflexivity.
Qed.




Lemma core_app_ready_when_ready (w : World) (p : Proc Globals) :
  is_ready (self p) = true -> ready_200 (fst (app (GET HealthReady) w p)).
Proof.
  intros Hp. unfold app, bind. rewrite core_readiness_check_run.
  rewrite Hp. simpl. eexists. repeat split; reflexivity.
Qed.


(** C10. In the intelligent core service the three dependency checks
    return true in every world and state, so GET /health/ready reports
    [ready] as [is_ready] alone with every dependency true, whatever the
    dependencies do, and once the startup event has happened every
    GET /health/ready is answered 200. *)
Theorem core_checks_always_true (w : World) (p : Proc Globals) :
  check_database_connection w p = (Ret true, p) /\
  check_redis_connection w p = (Ret true, p) /\
  check_rabbitmq_connection w p = (Ret true, p) /\
  (exists resp p',
      serve HealthReady w p = (Ret resp, p') /\
      field "ready" (content resp) = Some (JBool (is_ready (self p))) /\
      checks_of (content resp)
      = Some [("database", true); ("redis", true); ("rabbitmq", true)] /\
      status_code resp = (if is_ready (self p) then 200 else 503)) /\
  (forall pg rd mq,
      fst (serve HealthReady (with_peers pg rd mq w) p)
      = fst (serve HealthReady w p)) /\
  (forall before after,
      let p1 := snd (run app w (before ++ [Startup]) p) in
      let answers :=
        answers_to HealthReady after (fst (run app w after p1)) in
      Forall ready_200 answers /\
      List.length answers = requests_to HealthReady after).
Proof.
  repeat split; try reflexivity.
  - rewrite core_readiness_check_run. do 2 eexists.
    repeat split; reflexivity.
  - apply (run_good app is_ready w HealthReady ready_200
             (core_app_is_ready w) (core_app_ready_when_ready w)).
    rewrite (run_flag app is_ready w (core_app_is_ready w)).
    rewrite existsb_app. simpl. rewrite !orb_true_r. reflexivity.
  - apply length_answers_to_run.
Qed.

End CoreService.

(** ** Both implementations *)

(** C6. In every state and world GET /health/live answers 200 with the
    body status "alive", the service name and a timestamp; it raises
    nothing, opens no connection and prints nothing, leaves the state as it
    was, and answers the same whatever [is_ready] is and whatever the three
    dependencies do. *)
Theorem liveness_always_alive
    (w : World) (p : Proc HealthCheck.HealthChecker)
    (g : Proc IntelligentCore.Globals) :
  HealthCheck.serve HealthLive w p
  = (Ret (JSONResponse
            (JObj [("status", JStr "alive");
                   ("service", JStr (HealthCheck.service_name (self p)));
                   ("timestamp", JStr (isoformat (utcnow w (steps p))))])
            200),
     {| self := self p; steps := S (steps p); io := io p |}) /\
  (forall b pg rd mq,
      fst (HealthCheck.serve HealthLive (with_peers pg rd mq w)
             {| self := HealthCheck.set_is_ready b (self p);
                steps := steps p; io := io p |})
      = fst (HealthCheck.serve HealthLive w p)) /\
  IntelligentCore.serve HealthLive w g
  = (Ret (JSONResponse
            (JObj [("status", JStr "alive");
                   ("service", JStr IntelligentCore.SERVICE_NAME);
                   ("timestamp", JStr (isoformat (utcnow w (steps g))))])
            200),
     {| self := self g; steps := S (steps g); io := io g |}) /\
  (forall b pg rd mq,
      fst (IntelligentCore.serve HealthLive (with_peers pg rd mq w)
             {| self := IntelligentCore.set_is_ready b (self g);
                steps := steps g; io := io g |})
      = fst (IntelligentCore.serve HealthLive w g)).
Proof.
  repeat split; reflexivity.
Qed.



Lemma calm_world_clock_monotone : clock_monotone calm_world.
Proof. intros i j H. unfold calm_world. cbn [utcnow]. lia. Qed.


Example uptimes_of_a_run :
  uptimes [GET Health; Startup; GET HealthReady; GET Health]
    (fst (run HealthCheck.app calm_world
            [GET Health; Startup; GET HealthReady; GET Health]
            (sample_proc false)))
  = [Qmake 1000000 1000000; Qmake 12000000 1000000].
Proof. reflexivity. Qed.

(** * More of the shared checker *)

Section SharedCheckerMore.

Import HealthCheck.

Lemma probe_returns (w : World) (p : Proc HealthChecker)
    (probe : M HealthChecker bool) (o : option exn) :
  fst (probe w p) = probe_outcome o ->
  within_Exception o = true ->
  probe w p = (Ret (is_None o), snd (probe w p)).
Proof.
  intros E H. rewrite (probe_outcome_within _ H) in E.
  destruct (probe w p); simpl in *. rewrite E. reflexivity.
Qed.

(** The three probes as [get_readiness_status] runs them, one after the
    other. *)
Lemma probes_in_sequence (w : World) (p : Proc HealthChecker) :
  raises_only_Exception w (self p) ->
  exists p1 p2 p3,
    check_database w p
    = (Ret (is_None (first_raise (pg_calls
         (psycopg2 w (steps p) (postgres_config (self p)))))), p1) /\
    check_redis w p1
    = (Ret (is_None (first_raise (redis_calls
         (redis_py w (S (steps p)) (redis_config (self p)))))), p2) /\
    check_rabbitmq w p2
    = (Ret (is_None (first_raise (pika_calls
         (pika w (S (S (steps p))) (rabbitmq_config (self p)))))), p3) /\
    p1 = snd (check_database w p) /\
    p2 = snd (check_redis w p1) /\
    p3 = snd (check_rabbitmq w p2) /\
    self p1 = self p /\ self p2 = self p /\ self p3 = self p /\
    steps p1 = S (steps p) /\ steps p2 = S (S (steps p)) /\
    steps p3 = S (S (S (steps p))).
Proof.
  intros Hw.
  destruct (check_database_outcome w p) as (E1 & S1 & N1).
  destruct (check_redis_outcome w (snd (check_database w p)))
    as (E2 & S2 & N2).
  destruct (check_rabbitmq_outcome w
              (snd (check_redis w (snd (check_database w p)))))
    as (E3 & S3 & N3).
  rewrite S1, N1 in E2. rewrite S2, S1, N2, N1 in E3.
  destruct (Hw (steps p)) as (H1 & _ & _).
  destruct (Hw (S (steps p))) as (_ & H2 & _).
  destruct (Hw (S (S (steps p)))) as (_ & _ & H3).
  exists (snd (check_database w p)),
    (snd (check_redis w (snd (check_database w p)))),
    (snd (check_rabbitmq w (snd (check_redis w (snd (check_database w p)))))).
  split; [apply (probe_returns _ _ _ _ E1 H1) |].
  split; [apply (probe_returns _ _ _ _ E2 H2) |].
  split; [apply (probe_returns _ _ _ _ E3 H3) |].
  repeat split; congruence.
Qed.

(** X1. Where the connections raise nothing but instances of [Exception],
    GET /health/ready answers 200 exactly when the service has started and
    no call of the database, Redis and RabbitMQ attempts raises, and 503
    otherwise; the checks report each attempt and the request makes four
    observations (three connection attempts and the clock). *)
Theorem readiness_200_iff_started_and_reachable
    (w : World) (p : Proc HealthChecker) :
  raises_only_Exception w (self p) ->
  let pg := first_raise (pg_calls
              (psycopg2 w (steps p) (postgres_config (self p)))) in
  let rd := first_raise (redis_calls
              (redis_py w (S (steps p)) (redis_config (self p)))) in
  let mq := first_raise (pika_calls
              (pika w (S (S (steps p))) (rabbitmq_config (self p)))) in
  exists resp p',
    serve HealthReady w p = (Ret resp, p') /\
    checks_of (content resp)
    = Some [("service", is_ready (self p)); ("database", is_None pg);
            ("redis", is_None rd); ("rabbitmq", is_None mq)] /\
    (status_code resp = 200 <->
     is_ready (self p) = true /\ pg = None /\ rd = None /\ mq = None) /\
    (status_code resp = 503 <->
     ~ (is_ready (self p) = true /\ pg = None /\ rd = None /\ mq = None)) /\
    steps p' = (4 + steps p)%nat.
Proof.
  intros Hw pg rd mq.
  destruct (probes_in_sequence w p Hw)
    as (p1 & p2 & p3 & E1 & E2 & E3 & _ & _ & _ & _ & _ & _ & _ & _ & N3).
  fold pg in E1. fold rd in E2. fold mq in E3.
  simpl serve. rewrite (readiness_check_run w p p1 p2 p3 _ _ _ E1 E2 E3).
  do 2 eexists. split; [reflexivity |]. cbn [content status_code steps].
  split; [reflexivity |].
  split; [| split; [| rewrite N3; reflexivity]];
    destruct (is_ready (self p)), pg, rd, mq; simpl;
    intuition congruence.
Qed.

Lemma readiness_200_iff_started_and_reachable_witness :
  exists resp p',
    serve HealthReady calm_world (sample_proc true) = (Ret resp, p') /\
    checks_of (content resp)
    = Some [("service", true); ("database", true);
            ("redis", true); ("rabbitmq", true)] /\
    (status_code resp = 200 <->
     true = true /\ @None exn = None /\ @None exn = None /\ @None exn = None) /\
    (status_code resp = 503 <->
     ~ (true = true /\ @None exn = None /\ @None exn = None
        /\ @None exn = None)) /\
    steps p' = 5%nat.
Proof.
  apply (readiness_200_iff_started_and_reachable calm_world (sample_proc true)).
  intros n. repeat split; reflexivity.
Defined.

Lemma connects_app (l1 l2 : list io_event) :
  connects (l1 ++ l2) = (connects l1 ++ connects l2)%list.
Proof.
  induction l1 as [| [d | line] l1 IH]; simpl; [| rewrite IH |]; auto.
Qed.

Lemma prints_app (l1 l2 : list io_event) :
  prints (l1 ++ l2) = (prints l1 ++ prints l2)%list.
Proof.
  induction l1 as [| [d | line] l1 IH]; simpl; [| | rewrite IH]; auto.
Qed.

Ltac session_effects s :=
  destruct s;
  repeat match goal with
         | c : option exn |- _ => destruct c as [[? ? | ? ?] |]
         end;
  cbn; rewrite <- ?app_assoc, ?app_nil_r; reflexivity.

Lemma check_database_io (w : World) (p : Proc HealthChecker) :
  io (snd (check_database w p))
  = (io p ++ database_effects
               (psycopg2 w (steps p) (postgres_config (self p))))%list.
Proof.
  destruct p as [h n l]. unfold check_database, database_effects. step_py.
  session_effects (psycopg2 w n (postgres_config h)).
Qed.

Lemma check_redis_io (w : World) (p : Proc HealthChecker) :
  io (snd (check_redis w p))
  = (io p ++ redis_effects
               (redis_py w (steps p) (redis_config (self p))))%list.
Proof.
  destruct p as [h n l]. unfold check_redis, redis_effects. step_py.
  destruct (redis_py w n (redis_config h)) as [[[? ? | ? ?] |] [[? ? | ? ?] |]];
    cbn; rewrite <- ?app_assoc, ?app_nil_r; reflexivity.
Qed.

Lemma check_rabbitmq_io (w : World) (p : Proc HealthChecker) :
  io (snd (check_rabbitmq w p))
  = (io p ++ rabbitmq_effects
               (pika w (steps p) (rabbitmq_config (self p))))%list.
Proof.
  destruct p as [h n l]. unfold check_rabbitmq, rabbitmq_effects. step_py.
  destruct (pika w n (rabbitmq_config h))
    as [[[? ? | ? ?] |] [[? ? | ? ?] |] [[? ? | ? ?] |] [[? ? | ? ?] |]];
    cbn; rewrite <- ?app_assoc, ?app_nil_r; reflexivity.
Qed.

(** What a readiness request does that is visible, when it answers. *)
Lemma readiness_io (w : World) (p : Proc HealthChecker) :
  raises_only_Exception w (self p) ->
  io (snd (serve HealthReady w p))
  = (io p
     ++ database_effects (psycopg2 w (steps p) (postgres_config (self p)))
     ++ redis_effects (redis_py w (S (steps p)) (redis_config (self p)))
     ++ rabbitmq_effects
          (pika w (S (S (steps p))) (rabbitmq_config (self p))))%list.
Proof.
  intros Hw.
  destruct (probes_in_sequence w p Hw)
    as (p1 & p2 & p3 & E1 & E2 & E3 & D1 & D2 & D3
        & S1 & S2 & _ & N1 & N2 & _).
  simpl serve. rewrite (readiness_check_run w p p1 p2 p3 _ _ _ E1 E2 E3).
  cbn [snd io].
  rewrite D3, check_rabbitmq_io, D2, check_redis_io, D1, check_database_io.
  rewrite <- D1, <- D2. rewrite S1, N1, S2, N2.
  rewrite <- !app_assoc. reflexivity.
Qed.

Lemma connects_failure_line (prefix : string) (o : option exn) :
  connects (failure_line prefix o) = [].
Proof.
  destruct o as [e |]; simpl; [destruct (isinstance_Exception e) |];
    reflexivity.
Qed.

Lemma prints_failure_line (prefix : string) (o : option exn) :
  within_Exception o = true ->
  prints (failure_line prefix o) = line_of prefix o.
Proof.
  destruct o as [e |]; simpl; [| reflexivity].
  intros H. rewrite H. reflexivity.
Qed.

(** X2. A readiness request tries every dependency, whatever the earlier
    attempts did: where the connections raise nothing but instances of
    [Exception], it opens a connection to PostgreSQL, then to Redis unless
    the client's constructor raised, then to RabbitMQ unless the
    credentials or the parameters raised, in this order and nothing else. *)
Theorem readiness_tries_every_dependency (w : World) (p : Proc HealthChecker) :
  raises_only_Exception w (self p) ->
  let rd := redis_py w (S (steps p)) (redis_config (self p)) in
  let mq := pika w (S (S (steps p))) (rabbitmq_config (self p)) in
  connects (io (snd (serve HealthReady w p)))
  = (connects (io p)
     ++ [Postgres]
     ++ (if is_None (redis_init rd) then [Redis] else [])
     ++ (if is_None (pika_credentials mq) && is_None (pika_parameters mq)
         then [RabbitMQ] else []))%list.
Proof.
  intros Hw rd mq. rewrite (readiness_io w p Hw).
  unfold database_effects, redis_effects, rabbitmq_effects.
  fold rd. fold mq.
  rewrite !connects_app. cbn [connects].
  rewrite ?connects_app, !connects_failure_line, ?app_nil_r.
  destruct (is_None (redis_init rd));
    destruct (is_None (pika_credentials mq) && is_None (pika_parameters mq));
    reflexivity.
Qed.

Lemma readiness_tries_every_dependency_witness :
  connects
    (io (snd (serve HealthReady
                (with_peers
                   {| pg_connect := Some (Exc "OperationalError" "refused");
                      pg_cursor := None; pg_execute := None;
                      pg_cursor_close := None; pg_conn_close := None |}
                   quiet_session_redis broker_down calm_world)
                (sample_proc true))))
  = [Postgres; Redis; RabbitMQ].
Proof.
  apply (readiness_tries_every_dependency
           (with_peers
              {| pg_connect := Some (Exc "OperationalError" "refused");
                 pg_cursor := None; pg_execute := None;
                 pg_cursor_close := None; pg_conn_close := None |}
              quiet_session_redis broker_down calm_world)
           (sample_proc true)).
  intros n. repeat split; reflexivity.
Defined.

(** X3. Where the connections raise nothing but instances of [Exception],
    a readiness request prints one line for each check that fails, in the
    order database, Redis, RabbitMQ, made of the check's prefix and the
    text of the exception, and prints nothing for a check that
    succeeds. *)
Theorem readiness_prints_each_failure (w : World) (p : Proc HealthChecker) :
  raises_only_Exception w (self p) ->
  prints (io (snd (serve HealthReady w p)))
  = (prints (io p)
     ++ line_of "Database check failed: "
          (first_raise (pg_calls
             (psycopg2 w (steps p) (postgres_config (self p)))))
     ++ line_of "Redis check failed: "
          (first_raise (redis_calls
             (redis_py w (S (steps p)) (redis_config (self p)))))
     ++ line_of "RabbitMQ check failed: "
          (first_raise (pika_calls
             (pika w (S (S (steps p))) (rabbitmq_config (self p))))))%list.
Proof.
  intros Hw. rewrite (readiness_io w p Hw).
  destruct (Hw (steps p)) as (H1 & _ & _).
  destruct (Hw (S (steps p))) as (_ & H2 & _).
  destruct (Hw (S (S (steps p)))) as (_ & _ & H3).
  unfold database_effects, redis_effects, rabbitmq_effects.
  rewrite !prints_app. cbn [prints].
  rewrite ?prints_app.
  rewrite (prints_failure_line _ _ H1), (prints_failure_line _ _ H2),
    (prints_failure_line _ _ H3).
  destruct (is_None (redis_init
              (redis_py w (S (steps p)) (redis_config (self p)))));
    destruct (is_None (pika_credentials
                (pika w (S (S (steps p))) (rabbitmq_config (self p))))
              && is_None (pika_parameters
                   (pika w (S (S (steps p))) (rabbitmq_config (self p)))));
    reflexivity.
Qed.

Lemma readiness_prints_each_failure_witness :
  prints
    (io (snd (serve HealthReady
                (with_peers quiet_session_pg quiet_session_redis broker_down
                   calm_world) (sample_proc true))))
  = ["RabbitMQ check failed: Connection refused"].
Proof.
  apply (readiness_prints_each_failure
           (with_peers quiet_session_pg quiet_session_redis broker_down
              calm_world) (sample_proc true)).
  intros n. repeat split; reflexivity.
Defined.




(** X6. A constructor that returns has read every attribute from the
    environment: each variable that is set replaces its default, a port is
    whatever integer [int] makes of the variable, with no check of its
    range, and the checker starts not ready at the first reading of the
    clock. *)
Theorem construction_reads_environment
    (int_of_str : string -> option Z) (w : World) (name version : string)
    (p0 : Proc HealthChecker) :
  create_service_health_app int_of_str w name version = Ret p0 ->
  p0 = {| self := checker_from_environ int_of_str w name version (utcnow w 0);
          steps := 1; io := [] |}.
Proof.
  unfold create_service_health_app, __init__, int_getenv,
    checker_from_environ, port_from.
  step_py.
  repeat match goal with
         | |- context [match environ w ?k with _ => _ end] =>
             destruct (environ w k)
         | |- context [match int_of_str ?v with _ => _ end] =>
             destruct (int_of_str v)
         end;
    intros H; inversion H; reflexivity.
Qed.

Lemma construction_reads_environment_witness :
  {| self := checker_from_environ int_ascii
               (with_environ
                  (environ_of [("POSTGRES_HOST", "db.internal");
                               ("POSTGRES_PORT", "70000");
                               ("REDIS_PORT", "-1")]) calm_world)
               "broker-gateway" "1.0.0" (1700000000 * 1000000);
     steps := 1; io := [] |}
  = {| self := checker_from_environ int_ascii
                 (with_environ
                    (environ_of [("POSTGRES_HOST", "db.internal");
                                 ("POSTGRES_PORT", "70000");
                                 ("REDIS_PORT", "-1")]) calm_world)
                 "broker-gateway" "1.0.0"
                 (utcnow
                    (with_environ
                       (environ_of [("POSTGRES_HOST", "db.internal");
                                    ("POSTGRES_PORT", "70000");
                                    ("REDIS_PORT", "-1")]) calm_world) 0);
       steps := 1; io := [] |}.
Proof.
  apply (construction_reads_environment int_ascii
           (with_environ
              (environ_of [("POSTGRES_HOST", "db.internal");
                           ("POSTGRES_PORT", "70000");
                           ("REDIS_PORT", "-1")]) calm_world)
           "broker-gateway" "1.0.0").
  reflexivity.
Defined.

Example ports_out_of_range_are_kept :
  let h := checker_from_environ int_ascii
             (with_environ
                (environ_of [("POSTGRES_HOST", "db.internal");
                             ("POSTGRES_PORT", "70000");
                             ("REDIS_PORT", "-1")]) calm_world)
             "broker-gateway" "1.0.0" 0 in
  (pg_host (postgres_config h), pg_port (postgres_config h),
   redis_port (redis_config h), rabbitmq_port (rabbitmq_config h))
  = ("db.internal", 70000, -1, 5672).
Proof. reflexivity. Qed.

(** X7. Whatever a run of the application is made of, all it changes in
    the checker is [is_ready]: the checker after the run is the checker
    before when the run has no startup event, and the checker before with
    [is_ready] true when it has one, however many. *)
Theorem run_changes_only_is_ready
    (w : World) (events : list app_event) (p : Proc HealthChecker) :
  self (snd (run app w events p))
  = if existsb is_Startup events then set_is_ready true (self p) else self p.
Proof.
  revert p. induction events as [| ev events IH]; intros p; [reflexivity |].
  rewrite run_cons. cbn [snd]. rewrite IH.
  destruct ev as [| r].
  - rewrite startup_event_run. cbn [snd self existsb is_Startup orb].
    destruct (existsb is_Startup events); reflexivity.
  - destruct (frames_app_GET r w p) as [E _]. rewrite E.
    cbn [existsb is_Startup orb]. reflexivity.
Qed.

(** X8. The links GET / advertises are served: its health, liveness and
    readiness endpoints are the paths the application registers for these
    three handlers. Its api_docs link is "/docs", which is no registered
    path and not the docs_url "/health/docs" the application is created
    with. *)
Theorem root_advertises_registered_paths (w : World) (p : Proc HealthChecker) :
  let app := create_health_app (self p) in
  exists resp,
    serve Root w p = (Ret resp, p) /\
    status_code resp = 200 /\
    field "service" (content resp) = Some (JStr (service_name (self p))) /\
    advertised app (content resp) "health_endpoint" = Some Health /\
    advertised app (content resp) "liveness_endpoint" = Some HealthLive /\
    advertised app (content resp) "readiness_endpoint" = Some HealthReady /\
    field "api_docs" (content resp) = Some (JStr "/docs") /\
    advertised app (content resp) "api_docs" = None /\
    docs_url app = "/health/docs" /\
    app_title app = service_name (self p) ++ " Health".
Proof.
  destruct p as [h n l]. eexists. repeat split; reflexivity.
Qed.

End SharedCheckerMore.

(** * More of the intelligent core service *)

Section CoreServiceMore.

Import IntelligentCore.



(** X11. Importing the core service's module reads SERVICE_PORT alone:
    unset, the port is 8001; set to what [int] accepts, the port is that
    integer; set to anything else, the import raises ValueError. An import
    that succeeds leaves the service not ready, started at the first
    reading of the clock. *)
Theorem core_import_reads_service_port
    (int_of_str : string -> option Z) (w : World) :
  (environ w "SERVICE_PORT" = None ->
   import_module int_of_str w
   = Ret {| self := {| SERVICE_PORT := 8001; startup_time := utcnow w 0;
                       is_ready := false |};
            steps := 1; io := [] |}) /\
  (forall v n,
      environ w "SERVICE_PORT" = Some v -> int_of_str v = Some n ->
      import_module int_of_str w
      = Ret {| self := {| SERVICE_PORT := n; startup_time := utcnow w 0;
                          is_ready := false |};
               steps := 1; io := [] |}) /\
  (forall v,
      environ w "SERVICE_PORT" = Some v -> int_of_str v = None ->
      exists msg, import_module int_of_str w = Raise (Exc "ValueError" msg)).
Proof.
  unfold import_module, module_body, int_getenv. step_py.
  split; [| split].
  - intros E. rewrite E. reflexivity.
  - intros v n E P. rewrite E, P. reflexivity.
  - intros v E P. rewrite E, P. eexists. reflexivity.
Qed.

Lemma core_import_reads_service_port_witness :
  import_module int_ascii calm_world
  = Ret {| self := {| SERVICE_PORT := 8001;
                      startup_time := 1700000000 * 1000000;
                      is_ready := false |};
           steps := 1; io := [] |}
  /\
  import_module int_ascii
    (with_environ (one_variable "SERVICE_PORT" " 9001 ") calm_world)
  = Ret {| self := {| SERVICE_PORT := 9001;
                      startup_time := 1700000000 * 1000000;
                      is_ready := false |};
           steps := 1; io := [] |}
  /\
  exists msg,
    import_module int_ascii
      (with_environ (one_variable "SERVICE_PORT" "http") calm_world)
    = Raise (Exc "ValueError" msg).
Proof.
  split; [| split].
  - apply (proj1 (core_import_reads_service_port int_ascii calm_world)).
    reflexivity.
  - apply (proj1 (proj2 (core_import_reads_service_port int_ascii
                           (with_environ
                              (one_variable "SERVICE_PORT" " 9001 ")
                              calm_world))) " 9001 " 9001);
      reflexivity.
  - apply (proj2 (proj2 (core_import_reads_service_port int_ascii
                           (with_environ (one_variable "SERVICE_PORT" "http")
                              calm_world))) "http");
      reflexivity.
Defined.

End CoreServiceMore.

(** * The two implementations side by side *)



(** * The health check script of the container *)

Section ScriptFacts.

Import HealthCheckScript.

Variable str_strip : string -> string.

Ltac step_script :=
  cbv beta iota zeta delta
    [bind ret raise try_except_Exception subprocess_run].

Lemma check_postgresql_run (w : World) (p : Proc Script) :
  host_raises_only_Exception (self p) ->
  exists msg,
    check_postgresql w p
    = (Ret (exited_0 (subprocess (self p) (steps p) (nth 0 main_commands [])),
            msg),
       after_command (nth 0 main_commands []) p).
Proof.
  intros H. unfold check_postgresql, after_command. step_script.
  cbn [nth main_commands].
  destruct (subprocess (self p) (steps p)
              ["pg_isready"; "-h"; "localhost"; "-p"; "5432"])
    as [c | e] eqn:E; cbn [exited_0].
  - destruct (returncode c =? 0); eexists; reflexivity.
  - rewrite (H _ _ _ E). eexists. reflexivity.
Qed.

Lemma check_redis_run (w : World) (p : Proc Script) :
  host_raises_only_Exception (self p) ->
  exists msg,
    check_redis str_strip w p
    = (Ret (wrote_PONG str_strip
              (subprocess (self p) (steps p) (nth 1 main_commands [])),
            msg),
       after_command (nth 1 main_commands []) p).
Proof.
  intros H. unfold check_redis, after_command. step_script.
  cbn [nth main_commands].
  destruct (subprocess (self p) (steps p)
              ["redis-cli"; "-a"; "changeme"; "ping"])
    as [c | e] eqn:E; cbn [wrote_PONG].
  - destruct (String.eqb (str_strip (stdout c)) "PONG"); eexists; reflexivity.
  - rewrite (H _ _ _ E). eexists. reflexivity.
Qed.

Lemma check_rabbitmq_run (w : World) (p : Proc Script) :
  host_raises_only_Exception (self p) ->
  exists msg,
    check_rabbitmq w p
    = (Ret (exited_0 (subprocess (self p) (steps p) (nth 2 main_commands [])),
            msg),
       after_command (nth 2 main_commands []) p).
Proof.
  intros H. unfold check_rabbitmq, after_command. step_script.
  cbn [nth main_commands].
  destruct (subprocess (self p) (steps p) ["rabbitmqctl"; "status"])
    as [c | e] eqn:E; cbn [exited_0].
  - destruct (returncode c =? 0); eexists; reflexivity.
  - rewrite (H _ _ _ E). eexists. reflexivity.
Qed.

Lemma check_service_status_run (name : string) (w : World) (p : Proc Script) :
  host_raises_only_Exception (self p) ->
  exists msg,
    check_service_status name w p
    = (Ret (exited_0 (subprocess (self p) (steps p)
                        ["systemctl"; "is-active"; name]),
            msg),
       after_command ["systemctl"; "is-active"; name] p).
Proof.
  intros H. unfold check_service_status, after_command. step_script.
  destruct (subprocess (self p) (steps p) ["systemctl"; "is-active"; name])
    as [c | e] eqn:E; cbn [exited_0].
  - eexists. reflexivity.
  - rewrite (H _ _ _ E). eexists. reflexivity.
Qed.

(** [main] up to its eight checks. *)
Lemma main_after_checks (w : World) (p : Proc Script) :
  host_raises_only_Exception (self p) ->
  exists m0 m1 m2 m3 m4 m5 m6 m7,
    main str_strip w p
    = main_finish str_strip
        (combine check_names
           (combine (main_verdicts str_strip (self p) (steps p))
              [m0; m1; m2; m3; m4; m5; m6; m7]))
        w (after_commands (firstn 8 main_commands) p).
Proof.
  intros H.
  set (q1 := after_command (nth 0 main_commands []) p).
  set (q2 := after_command (nth 1 main_commands []) q1).
  set (q3 := after_command (nth 2 main_commands []) q2).
  set (q4 := after_command
               ["systemctl"; "is-active"; "stock-analysis-broker-gateway"] q3).
  set (q5 := after_command
               ["systemctl"; "is-active"; "stock-analysis-intelligent-core"]
               q4).
  set (q6 := after_command
               ["systemctl"; "is-active"; "stock-analysis-event-bus"] q5).
  set (q7 := after_command
               ["systemctl"; "is-active"; "stock-analysis-monitoring"] q6).
  destruct (check_postgresql_run w p H) as (m0 & E0).
  destruct (check_redis_run w q1 H) as (m1 & E1).
  destruct (check_rabbitmq_run w q2 H) as (m2 & E2).
  destruct (check_service_status_run "stock-analysis-broker-gateway" w q3 H)
    as (m3 & E3).
  destruct (check_service_status_run "stock-analysis-intelligent-core" w q4 H)
    as (m4 & E4).
  destruct (check_service_status_run "stock-analysis-event-bus" w q5 H)
    as (m5 & E5).
  destruct (check_service_status_run "stock-analysis-monitoring" w q6 H)
    as (m6 & E6).
  destruct (check_service_status_run "stock-analysis-frontend" w q7 H)
    as (m7 & E7).
  exists m0, m1, m2, m3, m4, m5, m6, m7.
  unfold main.
  unfold bind at 1. rewrite E0. cbv beta iota. fold q1.
  unfold bind at 1. rewrite E1. cbv beta iota. fold q2.
  unfold bind at 1. rewrite E2. cbv beta iota. fold q3.
  unfold services. cbn [check_services].
  unfold bind at 1. unfold bind at 1. rewrite E3. cbv beta iota. fold q4.
  unfold bind at 1. rewrite E4. cbv beta iota. fold q5.
  unfold bind at 1. rewrite E5. cbv beta iota. fold q6.
  unfold bind at 1. rewrite E6. cbv beta iota. fold q7.
  unfold bind at 1. rewrite E7. cbv beta iota.
  reflexivity.
Qed.

Lemma verdicts_of_checks (s : Script) (n : nat)
    (m0 m1 m2 m3 m4 m5 m6 m7 : string) :
  map (fun verdict : bool * string => fst verdict)
    (values (combine check_names
               (combine (main_verdicts str_strip s n)
                  [m0; m1; m2; m3; m4; m5; m6; m7])))
  = main_verdicts str_strip s n.
Proof. reflexivity. Qed.

Lemma steps_after_checks (p : Proc Script) :
  steps (after_commands (firstn 8 main_commands) p) = (8 + steps p)%nat
  /\ subprocess (self (after_commands (firstn 8 main_commands) p))
     = subprocess (self p)
  /\ printed (self (after_commands (firstn 8 main_commands) p))
     = printed (self p)
  /\ ran (self (after_commands (firstn 8 main_commands) p))
     = (ran (self p) ++ firstn 8 main_commands)%list.
Proof.
  repeat split; cbn; rewrite <- ?app_assoc; reflexivity.
Qed.

(** X13. On a host whose commands raise nothing but instances of
    [Exception], each check of the script runs one command and returns a
    verdict instead of raising: healthy exactly when the command exits
    with status 0, for Redis exactly when it writes PONG (whatever its exit
    status), and unhealthy, with the text of the exception in the message,
    when the command cannot be run. *)
Theorem script_checks_never_raise
    (w : World) (p : Proc Script) (name : string) :
  host_raises_only_Exception (self p) ->
  let answer := subprocess (self p) (steps p) in
  (exists msg,
      check_postgresql w p
      = (Ret (exited_0 (answer ["pg_isready"; "-h"; "localhost"; "-p"; "5432"]),
              msg),
         after_command ["pg_isready"; "-h"; "localhost"; "-p"; "5432"] p)) /\
  (exists msg,
      check_redis str_strip w p
      = (Ret (wrote_PONG str_strip
                (answer ["redis-cli"; "-a"; "changeme"; "ping"]), msg),
         after_command ["redis-cli"; "-a"; "changeme"; "ping"] p)) /\
  (exists msg,
      check_rabbitmq w p
      = (Ret (exited_0 (answer ["rabbitmqctl"; "status"]), msg),
         after_command ["rabbitmqctl"; "status"] p)) /\
  (exists msg,
      check_service_status name w p
      = (Ret (exited_0 (answer ["systemctl"; "is-active"; name]), msg),
         after_command ["systemctl"; "is-active"; name] p)) /\
  (forall e,
      answer ["pg_isready"; "-h"; "localhost"; "-p"; "5432"] = Raise e ->
      fst (check_postgresql w p)
      = Ret (false, "PostgreSQL check failed: " ++ str_exn e)) /\
  (forall e,
      answer ["redis-cli"; "-a"; "changeme"; "ping"] = Raise e ->
      fst (check_redis str_strip w p)
      = Ret (false, "Redis check failed: " ++ str_exn e)) /\
  (forall e,
      answer ["rabbitmqctl"; "status"] = Raise e ->
      fst (check_rabbitmq w p)
      = Ret (false, "RabbitMQ check failed: " ++ str_exn e)) /\
  (forall e,
      answer ["systemctl"; "is-active"; name] = Raise e ->
      fst (check_service_status name w p)
      = Ret (false, "Failed to check " ++ name ++ ": " ++ str_exn e)).
Proof.
  intros H answer.
  split; [exact (check_postgresql_run w p H) |].
  split; [exact (check_redis_run w p H) |].
  split; [exact (check_rabbitmq_run w p H) |].
  split; [exact (check_service_status_run name w p H) |].
  unfold answer.
  repeat split; intros e E;
    unfold check_postgresql, check_redis, check_rabbitmq,
      check_service_status;
    step_script; rewrite E, (H _ _ _ E); reflexivity.
Qed.

(** X14. On a host whose commands raise nothing but instances of
    [Exception] and where [date] runs, [main] prints one document and
    exits through [sys.exit] with 0 exactly when all eight checks are
    healthy and with 1 otherwise; the document's [healthy] is that
    conjunction, its checks are keyed postgresql, redis, rabbitmq and the
    five services in this order, each with its own verdict, and its
    timestamp is what [date] wrote, stripped. *)
Theorem main_exits_0_iff_all_healthy
    (w : World) (p : Proc Script) (d : CompletedProcess) :
  host_raises_only_Exception (self p) ->
  subprocess (self p) (8 + steps p) ["date"; "-u"; "+%Y-%m-%dT%H:%M:%SZ"]
  = Ret d ->
  let verdicts := main_verdicts str_strip (self p) (steps p) in
  exists doc checks p',
    main str_strip w p
    = (Raise (BaseExc SystemExit (if all verdicts then "0" else "1")), p') /\
    printed (self p') = (printed (self p) ++ [doc])%list /\
    field "healthy" doc = Some (JBool (all verdicts)) /\
    field "timestamp" doc = Some (JStr (str_strip (stdout d))) /\
    field "checks" doc = Some (JObj checks) /\
    keys checks = check_names /\
    healthy_flags checks = map (fun b => Some (JBool b)) verdicts.
Proof.
  intros H Hdate verdicts.
  destruct (main_after_checks w p H)
    as (m0 & m1 & m2 & m3 & m4 & m5 & m6 & m7 & E).
  destruct (steps_after_checks p) as (N & F & P & _).
  rewrite E. unfold main_finish. rewrite verdicts_of_checks. fold verdicts.
  unfold bind at 1. unfold subprocess_run at 1. rewrite N, F, Hdate.
  cbv beta iota.
  unfold bind, print_json, sys_exit, raise. cbn [self printed].
  rewrite P.
  replace (str_int (if all verdicts then 0 else 1))
    with (if all verdicts then "0" else "1")
    by (destruct (all verdicts); reflexivity).
  do 3 eexists.
  split; [reflexivity |].
  cbn [self printed].
  repeat split; reflexivity.
Qed.

(** X15. On a host whose commands raise nothing but instances of
    [Exception], [main] runs its nine commands, in the order of the source
    and whatever each of them answers: no failed check keeps a later one
    from running. *)
Theorem main_runs_every_command (w : World) (p : Proc Script) :
  host_raises_only_Exception (self p) ->
  ran (self (snd (main str_strip w p)))
  = (ran (self p) ++ main_commands)%list /\
  steps (snd (main str_strip w p)) = (9 + steps p)%nat.
Proof.
  intros H.
  destruct (main_after_checks w p H)
    as (m0 & m1 & m2 & m3 & m4 & m5 & m6 & m7 & E).
  destruct (steps_after_checks p) as (N & F & _ & R).
  assert (Hrun : exists r p',
             main str_strip w p = (r, p') /\
             ran (self p') = (ran (self p) ++ main_commands)%list /\
             steps p' = (9 + steps p)%nat).
  { rewrite E. unfold main_finish.
    unfold bind at 1. unfold subprocess_run at 1.
    destruct (subprocess (self (after_commands (firstn 8 main_commands) p))
                (steps (after_commands (firstn 8 main_commands) p))
                ["date"; "-u"; "+%Y-%m-%dT%H:%M:%SZ"]) as [d | e];
      cbv beta iota;
      unfold bind, print_json, sys_exit, raise;
      do 2 eexists; (split; [reflexivity |]);
      cbn [self ran steps];
      rewrite R, N, <- app_assoc; split; reflexivity. }
  destruct Hrun as (r & p' & Hmain & Hran & Hsteps).
  rewrite Hmain. split; assumption.
Qed.

(** X16. The timestamp is taken outside every [try]: on a host where the
    checks raise nothing but instances of [Exception] and [date] cannot be
    run, [main] runs all nine commands, prints no document and ends in the
    exception of [date] instead of [sys.exit], whatever the checks
    found. *)
Theorem main_prints_nothing_without_date
    (w : World) (p : Proc Script) (e : exn) :
  host_raises_only_Exception (self p) ->
  subprocess (self p) (8 + steps p) ["date"; "-u"; "+%Y-%m-%dT%H:%M:%SZ"]
  = Raise e ->
  exists p',
    main str_strip w p = (Raise e, p') /\
    printed (self p') = printed (self p) /\
    ran (self p') = (ran (self p) ++ main_commands)%list.
Proof.
  intros H Hdate.
  destruct (main_after_checks w p H)
    as (m0 & m1 & m2 & m3 & m4 & m5 & m6 & m7 & E).
  destruct (steps_after_checks p) as (N & F & P & R).
  rewrite E. unfold main_finish.
  unfold bind at 1. unfold subprocess_run at 1. rewrite N, F, Hdate.
  cbv beta iota. eexists. split; [reflexivity |].
  cbn [self printed ran]. rewrite P, R, <- app_assoc.
  split; reflexivity.
Qed.

End ScriptFacts.

Lemma script_checks_never_raise_witness :
  (exists msg,
      HealthCheckScript.check_postgresql calm_world bare_host
      = (Ret (false, msg),
         after_command ["pg_isready"; "-h"; "localhost"; "-p"; "5432"]
           bare_host)) /\
  fst (HealthCheckScript.check_service_status "stock-analysis-frontend" calm_world bare_host)
  = Ret (false,
         "Failed to check stock-analysis-frontend: "
           ++ "[Errno 2] No such file or directory: 'systemctl'").
Proof.
  destruct (script_checks_never_raise strip_ascii calm_world bare_host
              "stock-analysis-frontend")
    as (Hpg & _ & _ & _ & _ & _ & _ & Hsvc).
  - intros n argv e E. inversion E. reflexivity.
  - split; [exact Hpg |].
    apply (Hsvc (Exc "FileNotFoundError"
                   "[Errno 2] No such file or directory: 'systemctl'")).
    reflexivity.
Defined.

Lemma main_exits_0_iff_all_healthy_witness :
  exists doc checks p',
    HealthCheckScript.main strip_ascii calm_world (uniform_host 0 "PONG")
    = (Raise (BaseExc SystemExit "0"), p') /\
    HealthCheckScript.printed (self p') = [doc] /\
    field "healthy" doc = Some (JBool true) /\
    field "timestamp" doc = Some (JStr "PONG") /\
    field "checks" doc = Some (JObj checks) /\
    keys checks = check_names /\
    healthy_flags checks
    = map (fun b => Some (JBool b))
        [true; true; true; true; true; true; true; true].
Proof.
  apply (main_exits_0_iff_all_healthy strip_ascii calm_world
           (uniform_host 0 "PONG")
           {| HealthCheckScript.returncode := 0;
              HealthCheckScript.stdout := "PONG";
              HealthCheckScript.stderr := "" |}).
  - intros n argv e E. discriminate E.
  - reflexivity.
Defined.

Example main_exits_1_when_a_service_is_down :
  fst (HealthCheckScript.main strip_ascii calm_world (uniform_host 3 "PONG"))
  = Raise (BaseExc SystemExit "1").
Proof. reflexivity. Qed.


Lemma main_runs_every_command_witness :
  HealthCheckScript.ran
    (self (snd (HealthCheckScript.main strip_ascii calm_world bare_host)))
  = main_commands /\
  steps (snd (HealthCheckScript.main strip_ascii calm_world bare_host))
  = 9%nat.
Proof.
  apply (main_runs_every_command strip_ascii calm_world bare_host).
  intros n argv e E. inversion E. reflexivity.
Defined.

Lemma main_prints_nothing_without_date_witness :
  exists p',
    HealthCheckScript.main strip_ascii calm_world dateless_host
    = (Raise (Exc "FileNotFoundError"
                "[Errno 2] No such file or directory: 'date'"), p') /\
    HealthCheckScript.printed (self p') = [] /\
    HealthCheckScript.ran (self p') = main_commands.
Proof.
  apply (main_prints_nothing_without_date strip_ascii calm_world
           dateless_host).
  - intros n argv e E. simpl in E.
    destruct (String.eqb (hd "" argv) "date"); inversion E. reflexivity.
  - reflexivity.
Defined.

(** * The entry point of the shared module *)

(** X17. When the entry point of shared/health_check.py gets as far as
    starting the server, the server listens on all interfaces on the port
    the checker holds and GET /health reports, for the application of that
    checker; the service is named by SERVICE_NAME, "example-service" when
    unset, has version "1.0.0" and is not ready yet. *)
Theorem main_block_serves_the_reported_port
    (int_of_str : string -> option Z) (w : World)
    (checker : HealthCheck.HealthChecker) (server : Uvicorn)
    (p' : Proc unit) :
  main_block int_of_str w fresh = (Ret (checker, server), p') ->
  uvicorn_port server = HealthCheck.service_port checker /\
  uvicorn_host server = "0.0.0.0" /\
  uvicorn_app server = create_health_app checker /\
  checker
  = checker_from_environ int_of_str w
      (getenv w "SERVICE_NAME" "example-service") "1.0.0" (utcnow w 0).
Proof.
  unfold main_block, HealthCheck.__init__, int_getenv, fresh,
    checker_from_environ, port_from.
  step_py.
  repeat match goal with
         | |- context [match environ w ?k with _ => _ end] =>
             destruct (environ w k)
         | |- context [match int_of_str ?v with _ => _ end] =>
             destruct (int_of_str v)
         end;
    intros H; inversion H; repeat split; reflexivity.
Qed.

Lemma main_block_serves_the_reported_port_witness :
  uvicorn_port server_8080 = HealthCheck.service_port checker_8080 /\
  uvicorn_host server_8080 = "0.0.0.0" /\
  uvicorn_app server_8080 = create_health_app checker_8080 /\
  checker_8080
  = checker_from_environ int_ascii
      (with_environ (one_variable "SERVICE_PORT" "8080") calm_world)
      (getenv (with_environ (one_variable "SERVICE_PORT" "8080") calm_world)
         "SERVICE_NAME" "example-service")
      "1.0.0"
      (utcnow (with_environ (one_variable "SERVICE_PORT" "8080") calm_world)
         0).
Proof.
  exact (main_block_serves_the_reported_port int_ascii
           (with_environ (one_variable "SERVICE_PORT" "8080") calm_world)
           checker_8080 server_8080
           {| self := tt; steps := 1; io := [] |} eq_refl).
Defined.

(** * The integration test of the health endpoints *)

Section TestFacts.

Import IntegrationTest.

Variable requests_get : string -> result HttpResponse.

Lemma check_service_run (name : string) (port : Z) (w : World)
    (p : Proc unit) :
  requests_raise_only_Exception requests_get ->
  exists line,
    check_service requests_get name port w p = (Ret tt, after_line line p).
Proof.
  intros H. unfold check_service, bind, lift, emit, after_line.
  specialize (H ("http://localhost:" ++ str_int port ++ "/health")).
  destruct (requests_get ("http://localhost:" ++ str_int port ++ "/health"))
    as [response | e].
  - destruct (http_status response =? 200).
    + destruct (http_json response) as [data | e].
      * eexists. reflexivity.
      * destruct (is_ConnectionError e); [eexists; reflexivity |].
        rewrite H. eexists. reflexivity.
    + destruct (http_status response =? 503); eexists; reflexivity.
  - destruct (is_ConnectionError e); [eexists; reflexivity |].
    rewrite H. eexists. reflexivity.
Qed.

(** X18. [test_05_service_health_checks] asserts nothing: whatever the
    five services answer, status and body, and whatever instance of
    [Exception] the requests raise, the test returns normally, having
    printed its heading and one line for each service. *)
Theorem test_05_cannot_fail (w : World) (p : Proc unit) :
  requests_raise_only_Exception requests_get ->
  exists lines,
    List.length lines = 5%nat /\
    test_05_service_health_checks requests_get w p
    = (Ret tt,
       {| self := self p; steps := steps p;
          io := (io p
                 ++ map Print
                      (String (ascii_of_nat 10)
                         "[TEST] Service health checks..." :: lines))%list |}).
Proof.
  intros H.
  unfold test_05_service_health_checks, services. cbn [check_services].
  unfold bind at 1. unfold emit at 1. cbv beta iota.
  set (p0 := {| self := self p; steps := steps p;
                io := (io p ++ [Print (String (ascii_of_nat 10)
                                  "[TEST] Service health checks...")])%list |}).
  destruct (check_service_run "intelligent-core-service" 8001 w p0 H)
    as (l0 & E0).
  destruct (check_service_run "broker-gateway-service" 8002 w
              (after_line l0 p0) H) as (l1 & E1).
  destruct (check_service_run "event-bus-service" 8003 w
              (after_line l1 (after_line l0 p0)) H) as (l2 & E2).
  destruct (check_service_run "monitoring-service" 8004 w
              (after_line l2 (after_line l1 (after_line l0 p0))) H)
    as (l3 & E3).
  destruct (check_service_run "frontend-service" 8005 w
              (after_line l3 (after_line l2 (after_line l1
                 (after_line l0 p0)))) H) as (l4 & E4).
  exists [l0; l1; l2; l3; l4]. split; [reflexivity |].
  unfold bind at 1. rewrite E0. cbv beta iota.
  unfold bind at 1. rewrite E1. cbv beta iota.
  unfold bind at 1. rewrite E2. cbv beta iota.
  unfold bind at 1. rewrite E3. cbv beta iota.
  unfold bind at 1. rewrite E4. cbv beta iota.
  unfold ret, after_line, p0. cbn [self steps io map].
  rewrite <- !app_assoc. reflexivity.
Qed.


End TestFacts.

Lemma test_05_cannot_fail_witness :
  exists lines,
    List.length lines = 5%nat /\
    IntegrationTest.test_05_service_health_checks
      (only_core_answers calm_world (sample_core true)) calm_world fresh
    = (Ret tt,
       {| self := tt; steps := 0;
          io := map Print
                  (String (ascii_of_nat 10)
                     "[TEST] Service health checks..." :: lines) |}).
Proof.
  apply (test_05_cannot_fail
           (only_core_answers calm_world (sample_core true))
           calm_world fresh).
  intros url. unfold only_core_answers.
  destruct (String.eqb url "http://localhost:8001/health"); reflexivity.
Defined.


Example test_05_on_a_started_core :
  prints (io (snd (IntegrationTest.test_05_service_health_checks
                     (only_core_answers calm_world (sample_core true))
                     calm_world fresh)))
  = [String (ascii_of_nat 10) "[TEST] Service health checks...";
     "✓ intelligent-core-service is healthy";
     "✗ broker-gateway-service is not running (port 8002)";
     "✗ event-bus-service is not running (port 8003)";
     "✗ monitoring-service is not running (port 8004)";
     "✗ frontend-service is not running (port 8005)"].
Proof. vm_compute. reflexivity. Qed.
